(** * sakurai-nmf: the interface of semi-NMF and nonlinear semi-NMF

    A shallow embedding of [sakurai_nmf/matrix_factorization/matrix_factorization.py]:
    the shape validator [_check_shape] and the three entry operations
    [semi_nmf], [nonlin_semi_nmf] and [softmax_nmf], which bind a solver
    kernel with [functools.partial] and run it either at once on NumPy arrays
    or as a [tf.py_func] node of a TensorFlow graph.

    The solver kernels ([np_nmf], [np_biased_nmf]) are collaborators of the
    interface: they are a parameter of the development. *)

From Stdlib Require Import Floats ZArith.
From stdpp Require Import base option list gmap strings.

Local Open Scope string_scope.
Local Open Scope list_scope.

(* Python's float literals denote the closest binary64 value, too. *)
Set Warnings "-inexact-float".

(* ===================================================================== *)
(** ** NumPy: two-dimensional float64 arrays *)
(* ===================================================================== *)

Module Numpy.

(** An [np.ndarray] of rank 2: its shape [(nrows, ncols)] and its entries,
    row by row.  The shape is stored next to the entries, as in NumPy, so
    that an array with no row still knows how many columns it has. *)
Record ndarray : Type := mk_ndarray {
  nrows : nat;
  ncols : nat;
  entries : list (list float)
}.

(** What every array NumPy hands out satisfies: [nrows] rows of [ncols]
    entries each. *)
Definition well_shaped (m : ndarray) : Prop :=
  length (entries m) = nrows m ∧ Forall (λ r, length r = ncols m) (entries m).

Definition well_shapedb (m : ndarray) : bool :=
  (length (entries m) =? nrows m)%nat
  && forallb (λ r, (length r =? ncols m)%nat) (entries m).

(** The columns of [rs], whose rows have [n] entries. *)
Fixpoint columns (n : nat) (rs : list (list float)) : list (list float) :=
  match rs with
  | [] => replicate n []
  | r :: rs' => zip_with cons r (columns n rs')
  end.

(** [m.T] *)
Definition T (m : ndarray) : ndarray :=
  {| nrows := ncols m; ncols := nrows m; entries := columns (ncols m) (entries m) |}.

(** [m.shape] *)
Definition shape (m : ndarray) : nat * nat := (nrows m, ncols m).

(** NaN or one of the two infinities. *)
Definition nonfinite (x : float) : bool :=
  PrimFloat.is_nan x || PrimFloat.is_infinity x.

(** [not np.all(np.isfinite(m))] *)
Definition has_nonfinite (m : ndarray) : bool :=
  existsb (existsb nonfinite) (entries m).

End Numpy.
Export Numpy.

(* ===================================================================== *)
(** ** Python: exceptions, results, keyword values, [functools.partial] *)
(* ===================================================================== *)

Module Py.

Inductive exn : Type :=
| AssertionError
| NotImplementedError (msg : string)
| AttributeError (msg : string)
| TypeError (msg : string)
| ValueError (msg : string)
| InvalidArgumentError (msg : string)   (* tf.errors.InvalidArgumentError *)
| PyFuncError (cause : exn)             (* the failure of a tf.py_func node, as run reports it *)
| SolverKernelError (msg : string).     (* whatever else a solver kernel raises *)

(** The outcome of evaluating an expression: a value, or a raised exception. *)
Inductive result (A : Type) : Type :=
| Raise (e : exn)
| Return (x : A).
Global Arguments Raise {A} e.
Global Arguments Return {A} x.

Global Instance result_ret : MRet result := λ A x, Return x.
Global Instance result_bind : MBind result := λ A B f r,
  match r with
  | Raise e => Raise e
  | Return x => f x
  end.
Global Instance result_fmap : FMap result := λ A B f r,
  match r with
  | Raise e => Raise e
  | Return x => Return (f x)
  end.

(** The values passed as hyperparameters. *)
Inductive pyval : Type :=
| PyBool (b : bool)
| PyInt (z : Z)
| PyFloat (f : float).

(** [BATCH_FIRST = True] (line 11). *)
Definition BATCH_FIRST : pyval := PyBool true.

(** [x is BATCH_FIRST]: identity with the singleton [True]; the integer [1]
    and the float [1.0] are other objects. *)
Definition is_BATCH_FIRST (x : pyval) : bool :=
  match x with
  | PyBool true => true
  | _ => false
  end.

(** The two solver-kernel modules and the three kernels each of them has,
    under the names the interface imports them by. *)
Inductive solver_module : Type := np_nmf | np_biased_nmf.
Inductive solver_func : Type := semi_nmf_ | nonlin_semi_nmf_ | softmax_nmf_.

(** A [functools.partial] object: the function and the keywords bound to it. *)
Record partial : Type := mk_partial {
  p_module : solver_module;
  p_func : solver_func;
  p_keywords : gmap string pyval
}.

End Py.
Export Py.

(* ===================================================================== *)
(** ** TensorFlow: graph tensors of rank 2 and their static shapes *)
(* ===================================================================== *)

Module Tf.

(** A [Dimension]: a known size, or unknown ([None], printed [?]). *)
Definition Dimension : Type := option nat.

(** A [TensorShape] of a matrix, or the shape of unknown rank. *)
Inductive TensorShape : Type :=
| unknown_shape
| matrix_shape (d0 d1 : Dimension).

(** [s[0]] and [s[1]]; indexing a shape of unknown rank gives an unknown
    dimension. *)
Definition dim0 (s : TensorShape) : Dimension :=
  match s with
  | unknown_shape => None
  | matrix_shape d0 _ => d0
  end.
Definition dim1 (s : TensorShape) : Dimension :=
  match s with
  | unknown_shape => None
  | matrix_shape _ d1 => d1
  end.

(** [d == e]: [None] when either side is unknown. *)
Definition dim_eq (d e : Dimension) : option bool :=
  match d, e with
  | Some x, Some y => Some (x =? y)%nat
  | _, _ => None
  end.

(** [d + n] *)
Definition dim_add (d : Dimension) (n : nat) : Dimension :=
  match d with
  | Some x => Some (x + n)%nat
  | None => None
  end.

(** [Dimension.merge_with] *)
Definition dim_merge (d e : Dimension) : result Dimension :=
  match d, e with
  | None, _ => Return e
  | _, None => Return d
  | Some x, Some y =>
      if (x =? y)%nat then Return d
      else Raise (ValueError "Dimensions are not compatible")
  end.

(** [TensorShape.merge_with] *)
Definition merge_with (s t : TensorShape) : result TensorShape :=
  match s, t with
  | unknown_shape, _ => Return t
  | _, unknown_shape => Return s
  | matrix_shape d0 d1, matrix_shape e0 e1 =>
      m0 ← dim_merge d0 e0;
      m1 ← dim_merge d1 e1;
      Return (matrix_shape m0 m1)
  end.

(** The static shape of [tf.transpose(x)]. *)
Definition transpose_shape (s : TensorShape) : TensorShape :=
  match s with
  | unknown_shape => unknown_shape
  | matrix_shape d0 d1 => matrix_shape d1 d0
  end.

(** The shape of a NumPy array, as a fully known [TensorShape]. *)
Definition as_shape (sh : nat * nat) : TensorShape :=
  matrix_shape (Some sh.1) (Some sh.2).

(** Which of the two outputs of a [tf.py_func] node with
    [Tout = [tf.float64, tf.float64]] a tensor is. *)
Inductive output_index : Type := out_0 | out_1.

(** The graph tensors the interface builds or is given. *)
Inductive Tensor : Type :=
| constant (m : ndarray)                           (* an array converted to a tensor *)
| placeholder (name : string) (s : TensorShape)    (* tf.placeholder *)
| transpose (x : Tensor)                           (* tf.transpose *)
| py_func (f : partial) (a u v : Tensor) (i : output_index)   (* tf.py_func(f, [a, u, v], ..)[i] *)
| check_numerics (x : Tensor) (message : string)   (* tf.check_numerics *)
| shaped (x : Tensor) (s : TensorShape).           (* x after x.set_shape: static shape s *)

(** [x.shape] of a graph tensor.  A [tf.py_func] output has no static
    shape. *)
Fixpoint get_shape (x : Tensor) : TensorShape :=
  match x with
  | constant m => as_shape (shape m)
  | placeholder _ s => s
  | transpose y => transpose_shape (get_shape y)
  | py_func _ _ _ _ _ => unknown_shape
  | check_numerics y _ => get_shape y
  | shaped _ s => s
  end.

(** [x.set_shape(s)]: the static shape becomes the merge of the present one
    with [s]; a [ValueError] when the two are not compatible. *)
Definition set_shape (x : Tensor) (s : TensorShape) : result Tensor :=
  m ← merge_with (get_shape x) s;
  Return (shaped x m).

End Tf.
Export Tf.

(* ===================================================================== *)
(** ** The objects passed as [a], [u], [v], and the solver kernels *)
(* ===================================================================== *)

(** A matrix argument: a NumPy array or a graph tensor. *)
Inductive pyobj : Type :=
| NdArray (m : ndarray)
| TfTensor (x : Tensor).

(** [isinstance(x, np.ndarray)] *)
Definition isinstance_ndarray (x : pyobj) : bool :=
  match x with
  | NdArray _ => true
  | TfTensor _ => false
  end.

(** [x.shape]: the shape tuple of an array, the static shape of a tensor. *)
Definition dot_shape (x : pyobj) : TensorShape :=
  match x with
  | NdArray m => as_shape (shape m)
  | TfTensor t => get_shape t
  end.

(** [x.T]: a graph tensor has no such attribute. *)
Definition dot_T (x : pyobj) : result pyobj :=
  match x with
  | NdArray m => Return (NdArray (T m))
  | TfTensor _ => Raise (AttributeError "'Tensor' object has no attribute 'T'")
  end.

(** The conversion TensorFlow applies to the argument of an op. *)
Definition convert_to_tensor (x : pyobj) : Tensor :=
  match x with
  | NdArray m => constant m
  | TfTensor t => t
  end.

(** [tf.transpose(x)] *)
Definition tf_transpose (x : pyobj) : Tensor := transpose (convert_to_tensor x).

(** The solver kernels: [kernel mod f kw a u v] is the call
    [mod.f(a=a, u=u, v=v, **kw)], which returns a pair [(u, v)] of arrays or
    raises. *)
Definition solver_kernels : Type :=
  solver_module → solver_func → gmap string pyval →
  pyobj → pyobj → pyobj → result (ndarray * ndarray).

(** What a call of the interface does besides returning: it constructs
    solver callables and invokes them. *)
Inductive event : Type :=
| Bound (p : partial)                    (* functools.partial(...) was built *)
| Invoked (p : partial) (a u v : pyobj). (* the bound kernel was called *)

(** A computation of the interface: the events so far and the outcome. *)
Definition M (A : Type) : Type := list event * result A.

Global Instance M_ret : MRet M := λ A x, ([], Return x).
Global Instance M_bind : MBind M := λ A B f m,
  match m with
  | (t, Raise e) => (t, Raise e)
  | (t, Return x) => let '(t', r) := f x in (t ++ t', r)
  end.

Definition raise {A} (e : exn) : M A := ([], Raise e).
Definition lift {A} (r : result A) : M A := ([], r).

(** [functools.partial(mod.f, **kw)] *)
Definition functools_partial (md : solver_module) (f : solver_func)
    (kw : gmap string pyval) : M partial :=
  let p := mk_partial md f kw in ([Bound p], Return p).

(** The truth value of what [_check_shape] returns ([True], [False] or
    [None]), and [assert]. *)
Definition truthy (x : option bool) : bool :=
  match x with
  | Some true => true
  | _ => false
  end.

Definition assert_ (x : option bool) : M unit :=
  if truthy x then mret () else raise AssertionError.

(** [x or y] *)
Definition py_or (x y : option bool) : option bool :=
  if truthy x then x else y.

(* ===================================================================== *)
(** ** The interface: [matrix_factorization.py] *)
(* ===================================================================== *)

(** [_check_shape] (lines 14-21).  [int(use_bias)] is [Nat.b2n use_bias]. *)
Definition _check_shape (a u v : pyobj) (use_bias : bool) : option bool :=
  let a_shape := dot_shape a in
  let u_shape := dot_shape u in
  let v_shape := dot_shape v in
  py_or (py_or (dim_eq (dim0 a_shape) (dim0 u_shape))
               (dim_eq (dim1 a_shape) (dim1 v_shape)))
        (dim_eq (dim1 u_shape) (dim_add (dim0 v_shape) (Nat.b2n use_bias))).

Section Interface.

(** The solver kernels of [np_nmf] and [np_biased_nmf]. *)
Variable kernel : solver_kernels.

(** The call [p(a, u, v)] of a bound kernel, and what it returns or raises. *)
Definition invoke (p : partial) (a u v : pyobj) : result (ndarray * ndarray) :=
  kernel (p_module p) (p_func p) (p_keywords p) a u v.

(** The same call as a step of the interface. *)
Definition call (p : partial) (a u v : pyobj) : M (ndarray * ndarray) :=
  ([Invoked p a u v], invoke p a u v).

(** [semi_nmf] (lines 24-111) *)
Definition semi_nmf (a u v : pyobj) (use_bias use_tf : bool)
    (data_format first_nneg num_iters rcond eps alpha beta : pyval)
    : M (pyobj * pyobj) :=
  assert_ (_check_shape a u v use_bias);;
  _semi_nmf ←
    (if use_bias then
       functools_partial np_biased_nmf semi_nmf_
         {[ "alpha" := alpha; "beta" := beta; "rcond" := rcond; "eps" := eps;
            "num_iters" := num_iters; "first_nneg" := first_nneg ]}
     else
       functools_partial np_nmf semi_nmf_
         {[ "rcond" := rcond; "eps" := eps;
            "num_iters" := num_iters; "first_nneg" := first_nneg ]});
  if isinstance_ndarray a && negb use_tf then
    if is_BATCH_FIRST data_format then
      a_T ← lift (dot_T a);
      v_T ← lift (dot_T v);
      u_T ← lift (dot_T u);
      '(u_t, v_t) ← call _semi_nmf a_T v_T u_T;
      let u := NdArray (T v_t) in
      let v := NdArray (T u_t) in
      mret (u, v)
    else
      '(u', v') ← call _semi_nmf a u v;
      mret (NdArray u', NdArray v')
  else if use_tf then
    let u_shape := dot_shape u in
    let v_shape := dot_shape v in
    if is_BATCH_FIRST data_format then
      let a_t := tf_transpose a in
      let tf_u_t := py_func _semi_nmf a_t (tf_transpose v) (tf_transpose u) out_0 in
      let tf_v_t := py_func _semi_nmf a_t (tf_transpose v) (tf_transpose u) out_1 in
      let tf_u := check_numerics (transpose tf_v_t) "u" in
      let tf_v := check_numerics (transpose tf_u_t) "v" in
      tf_u ← lift (set_shape tf_u u_shape);
      tf_v ← lift (set_shape tf_v v_shape);
      mret (TfTensor tf_u, TfTensor tf_v)
    else
      let tf_u := py_func _semi_nmf (convert_to_tensor a) (convert_to_tensor u)
                    (convert_to_tensor v) out_0 in
      let tf_v := py_func _semi_nmf (convert_to_tensor a) (convert_to_tensor u)
                    (convert_to_tensor v) out_1 in
      let tf_u := check_numerics tf_u "u" in
      let tf_v := check_numerics tf_v "v" in
      tf_u ← lift (set_shape tf_u u_shape);
      tf_v ← lift (set_shape tf_v v_shape);
      mret (TfTensor tf_u, TfTensor tf_v)
  else raise (NotImplementedError "Never implement other type matrix").

(** [nonlin_semi_nmf] (lines 114-205) *)
Definition nonlin_semi_nmf (a u v : pyobj) (use_bias use_tf : bool)
    (data_format first_nneg num_iters num_calc_u num_calc_v rcond eps alpha beta : pyval)
    : M (pyobj * pyobj) :=
  assert_ (_check_shape a u v use_bias);;
  _nonlin_semi_nmf ←
    (if use_bias then
       functools_partial np_biased_nmf nonlin_semi_nmf_
         {[ "alpha" := alpha; "beta" := beta; "rcond" := rcond; "eps" := eps;
            "num_iters" := num_iters; "num_calc_u" := num_calc_u;
            "num_calc_v" := num_calc_v; "first_nneg" := first_nneg ]}
     else
       functools_partial np_nmf nonlin_semi_nmf_
         {[ "rcond" := rcond; "eps" := eps;
            "num_iters" := num_iters; "num_calc_u" := num_calc_u;
            "num_calc_v" := num_calc_v; "first_nneg" := first_nneg ]});
  if isinstance_ndarray a && negb use_tf then
    if is_BATCH_FIRST data_format then
      a_T ← lift (dot_T a);
      v_T ← lift (dot_T v);
      u_T ← lift (dot_T u);
      '(u_t, v_t) ← call _nonlin_semi_nmf a_T v_T u_T;
      let u := NdArray (T v_t) in
      let v := NdArray (T u_t) in
      mret (u, v)
    else
      '(u', v') ← call _nonlin_semi_nmf a u v;
      mret (NdArray u', NdArray v')
  else if use_tf then
    let u_shape := dot_shape u in
    let v_shape := dot_shape v in
    if is_BATCH_FIRST data_format then
      let tf_u_t := py_func _nonlin_semi_nmf (tf_transpose a) (tf_transpose v)
                      (tf_transpose u) out_0 in
      let tf_v_t := py_func _nonlin_semi_nmf (tf_transpose a) (tf_transpose v)
                      (tf_transpose u) out_1 in
      let tf_u := check_numerics (transpose tf_v_t) "u" in
      let tf_v := check_numerics (transpose tf_u_t) "v" in
      tf_u ← lift (set_shape tf_u u_shape);
      tf_v ← lift (set_shape tf_v v_shape);
      mret (TfTensor tf_u, TfTensor tf_v)
    else
      let tf_u := py_func _nonlin_semi_nmf (convert_to_tensor a) (convert_to_tensor u)
                    (convert_to_tensor v) out_0 in
      let tf_v := py_func _nonlin_semi_nmf (convert_to_tensor a) (convert_to_tensor u)
                    (convert_to_tensor v) out_1 in
      let tf_u := check_numerics tf_u "u" in
      let tf_v := check_numerics tf_v "v" in
      tf_u ← lift (set_shape tf_u u_shape);
      tf_v ← lift (set_shape tf_v v_shape);
      mret (TfTensor tf_u, TfTensor tf_v)
  else raise (NotImplementedError "Never implement other type matrix").

(** [softmax_nmf] (lines 208-291): no [assert], no [first_nneg]. *)
Definition softmax_nmf (a u v : pyobj) (use_bias use_tf : bool)
    (data_format num_iters rcond eps alpha beta : pyval)
    : M (pyobj * pyobj) :=
  _semi_nmf ←
    (if use_bias then
       functools_partial np_biased_nmf softmax_nmf_
         {[ "alpha" := alpha; "beta" := beta; "rcond" := rcond; "eps" := eps;
            "num_iters" := num_iters ]}
     else
       functools_partial np_nmf softmax_nmf_
         {[ "rcond" := rcond; "eps" := eps; "num_iters" := num_iters ]});
  if isinstance_ndarray a && negb use_tf then
    if is_BATCH_FIRST data_format then
      a_T ← lift (dot_T a);
      v_T ← lift (dot_T v);
      u_T ← lift (dot_T u);
      '(u_t, v_t) ← call _semi_nmf a_T v_T u_T;
      let u := NdArray (T v_t) in
      let v := NdArray (T u_t) in
      mret (u, v)
    else
      '(u', v') ← call _semi_nmf a u v;
      mret (NdArray u', NdArray v')
  else if use_tf then
    let u_shape := dot_shape u in
    let v_shape := dot_shape v in
    if is_BATCH_FIRST data_format then
      let a_t := tf_transpose a in
      let tf_u_t := py_func _semi_nmf a_t (tf_transpose v) (tf_transpose u) out_0 in
      let tf_v_t := py_func _semi_nmf a_t (tf_transpose v) (tf_transpose u) out_1 in
      let tf_u := check_numerics (transpose tf_v_t) "u" in
      let tf_v := check_numerics (transpose tf_u_t) "v" in
      tf_u ← lift (set_shape tf_u u_shape);
      tf_v ← lift (set_shape tf_v v_shape);
      mret (TfTensor tf_u, TfTensor tf_v)
    else
      let tf_u := py_func _semi_nmf (convert_to_tensor a) (convert_to_tensor u)
                    (convert_to_tensor v) out_0 in
      let tf_v := py_func _semi_nmf (convert_to_tensor a) (convert_to_tensor u)
                    (convert_to_tensor v) out_1 in
      let tf_u := check_numerics tf_u "u" in
      let tf_v := check_numerics tf_v "v" in
      tf_u ← lift (set_shape tf_u u_shape);
      tf_v ← lift (set_shape tf_v v_shape);
      mret (TfTensor tf_u, TfTensor tf_v)
  else raise (NotImplementedError "Never implement other type matrix").

(** *** Running a graph: [session.run] *)

(** Whether an array may be fed to a placeholder of static shape [s]. *)
Definition feedable (s : TensorShape) (m : ndarray) : bool :=
  match merge_with s (as_shape (shape m)) with
  | Return _ => true
  | Raise _ => false
  end.

(** The value of a tensor under a feed dictionary.  The [tf.py_func] node
    calls the bound kernel on the values of its inputs; [tf.check_numerics]
    fails on a NaN or an infinity; a static shape has no effect at run
    time. *)
Fixpoint run (feed : gmap string ndarray) (x : Tensor) : result ndarray :=
  match x with
  | constant m => Return m
  | placeholder name s =>
      match feed !! name with
      | None => Raise (InvalidArgumentError "You must feed a value for placeholder tensor")
      | Some m =>
          if feedable s m then Return m
          else Raise (ValueError "Cannot feed value")
      end
  | transpose y => T <$> run feed y
  | py_func f a u v i =>
      va ← run feed a;
      vu ← run feed u;
      vv ← run feed v;
          match invoke f (NdArray va) (NdArray vu) (NdArray vv) with
    | Raise e => Raise (PyFuncError e)
    | Return (ou, ov) => Return (match i with out_0 => ou | out_1 => ov end)
    end
  | check_numerics y message =>
      m ← run feed y;
      if has_nonfinite m then Raise (InvalidArgumentError message) else Return m
  | shaped y _ => run feed y
  end.

(** [session.run([x, y], feed_dict=feed)] *)
Definition run2 (feed : gmap string ndarray) (xy : Tensor * Tensor)
    : result (ndarray * ndarray) :=
  vx ← run feed xy.1;
  vy ← run feed xy.2;
  Return (vx, vy).

(** *** Calls with keyword arguments *)

(** The keyword arguments of a call [f(a, u, v, **kw)]: for each keyword
    that occurs in one of the three signatures, the value passed, if any. *)
Record kwargs : Type := mk_kwargs {
  kw_use_bias : option bool;
  kw_use_tf : option bool;
  kw_data_format : option pyval;
  kw_first_nneg : option pyval;
  kw_num_iters : option pyval;
  kw_num_calc_u : option pyval;
  kw_num_calc_v : option pyval;
  kw_rcond : option pyval;
  kw_eps : option pyval;
  kw_alpha : option pyval;
  kw_beta : option pyval
}.

(** The defaults of the signatures. *)
Definition default_first_nneg : pyval := PyBool true.
Definition default_num_iters : pyval := PyInt 1.
Definition default_num_calc : pyval := PyInt 1.
Definition default_rcond : pyval := PyFloat 1e-14.
Definition default_eps : pyval := PyFloat 1e-15.
Definition default_alpha : pyval := PyFloat 1e-2.
Definition default_beta : pyval := PyFloat 1e-2.

Definition unexpected_keyword {A} : M A :=
  raise (TypeError "got an unexpected keyword argument").

(** [semi_nmf(a, u, v, **kw)]: the signature of lines 24-33 and its
    defaults; it has no [num_calc_u] and no [num_calc_v]. *)
Definition call_semi_nmf (a u v : pyobj) (kw : kwargs) : M (pyobj * pyobj) :=
  if bool_decide (is_Some (kw_num_calc_u kw)) || bool_decide (is_Some (kw_num_calc_v kw))
  then unexpected_keyword
  else
    semi_nmf a u v
      (default false (kw_use_bias kw))
      (default false (kw_use_tf kw))
      (default BATCH_FIRST (kw_data_format kw))
      (default default_first_nneg (kw_first_nneg kw))
      (default default_num_iters (kw_num_iters kw))
      (default default_rcond (kw_rcond kw))
      (default default_eps (kw_eps kw))
      (default default_alpha (kw_alpha kw))
      (default default_beta (kw_beta kw)).

(** [nonlin_semi_nmf(a, u, v, **kw)]: the signature of lines 114-125. *)
Definition call_nonlin_semi_nmf (a u v : pyobj) (kw : kwargs) : M (pyobj * pyobj) :=
  nonlin_semi_nmf a u v
    (default false (kw_use_bias kw))
    (default false (kw_use_tf kw))
    (default BATCH_FIRST (kw_data_format kw))
    (default default_first_nneg (kw_first_nneg kw))
    (default default_num_iters (kw_num_iters kw))
    (default default_num_calc (kw_num_calc_u kw))
    (default default_num_calc (kw_num_calc_v kw))
    (default default_rcond (kw_rcond kw))
    (default default_eps (kw_eps kw))
    (default default_alpha (kw_alpha kw))
    (default default_beta (kw_beta kw)).

(** [softmax_nmf(a, u, v, **kw)]: the signature of lines 208-216; it has no
    [first_nneg], no [num_calc_u] and no [num_calc_v]. *)
Definition call_softmax_nmf (a u v : pyobj) (kw : kwargs) : M (pyobj * pyobj) :=
  if bool_decide (is_Some (kw_first_nneg kw))
     || bool_decide (is_Some (kw_num_calc_u kw))
     || bool_decide (is_Some (kw_num_calc_v kw))
  then unexpected_keyword
  else
    softmax_nmf a u v
      (default false (kw_use_bias kw))
      (default false (kw_use_tf kw))
      (default BATCH_FIRST (kw_data_format kw))
      (default default_num_iters (kw_num_iters kw))
      (default default_rcond (kw_rcond kw))
      (default default_eps (kw_eps kw))
      (default default_alpha (kw_alpha kw))
      (default default_beta (kw_beta kw)).

(** *** The text the three entry operations have in common *)

(** The immediate branch (lines 78-86, 172-180, 258-266). *)
Definition immediate (p : partial) (a u v : pyobj) (data_format : pyval)
    : M (pyobj * pyobj) :=
  if is_BATCH_FIRST data_format then
    a_T ← lift (dot_T a);
    v_T ← lift (dot_T v);
    u_T ← lift (dot_T u);
    '(u_t, v_t) ← call p a_T v_T u_T;
    mret (NdArray (T v_t), NdArray (T u_t))
  else
    '(u', v') ← call p a u v;
    mret (NdArray u', NdArray v').

(** The graph the deferred branch builds, before the static shapes are set
    (lines 94-100 and 104-106, and their copies). *)
Definition gated_outputs (p : partial) (a u v : pyobj) (data_format : pyval)
    : Tensor * Tensor :=
  if is_BATCH_FIRST data_format then
    (check_numerics
       (transpose (py_func p (tf_transpose a) (tf_transpose v) (tf_transpose u) out_1)) "u",
     check_numerics
       (transpose (py_func p (tf_transpose a) (tf_transpose v) (tf_transpose u) out_0)) "v")
  else
    (check_numerics
       (py_func p (convert_to_tensor a) (convert_to_tensor u) (convert_to_tensor v) out_0) "u",
     check_numerics
       (py_func p (convert_to_tensor a) (convert_to_tensor u) (convert_to_tensor v) out_1) "v").

(** The deferred branch (lines 89-109, 183-203, 269-289). *)
Definition deferred (p : partial) (a u v : pyobj) (data_format : pyval)
    : M (pyobj * pyobj) :=
  let u_shape := dot_shape u in
  let v_shape := dot_shape v in
  tf_u ← lift (set_shape (gated_outputs p a u v data_format).1 u_shape);
  tf_v ← lift (set_shape (gated_outputs p a u v data_format).2 v_shape);
  mret (TfTensor tf_u, TfTensor tf_v).

(** The choice of the backend (lines 77-111, 171-205, 257-291). *)
Inductive backend : Type := Immediate | Deferred | Unsupported.

Definition select_backend (a : pyobj) (use_tf : bool) : backend :=
  if isinstance_ndarray a && negb use_tf then Immediate
  else if use_tf then Deferred
  else Unsupported.

Definition dispatch (p : partial) (a u v : pyobj) (use_tf : bool) (data_format : pyval)
    : M (pyobj * pyobj) :=
  match select_backend a use_tf with
  | Immediate => immediate p a u v data_format
  | Deferred => deferred p a u v data_format
  | Unsupported => raise (NotImplementedError "Never implement other type matrix")
  end.

End Interface.

(** The callables the entry operations bind (lines 58-75, 148-169, 240-255). *)
Definition linear_partial (use_bias : bool)
    (first_nneg num_iters rcond eps alpha beta : pyval) : partial :=
  if use_bias then
    mk_partial np_biased_nmf semi_nmf_
      {[ "alpha" := alpha; "beta" := beta; "rcond" := rcond; "eps" := eps;
         "num_iters" := num_iters; "first_nneg" := first_nneg ]}
  else
    mk_partial np_nmf semi_nmf_
      {[ "rcond" := rcond; "eps" := eps;
         "num_iters" := num_iters; "first_nneg" := first_nneg ]}.

Definition nonlinear_partial (use_bias : bool)
    (first_nneg num_iters num_calc_u num_calc_v rcond eps alpha beta : pyval) : partial :=
  if use_bias then
    mk_partial np_biased_nmf nonlin_semi_nmf_
      {[ "alpha" := alpha; "beta" := beta; "rcond" := rcond; "eps" := eps;
         "num_iters" := num_iters; "num_calc_u" := num_calc_u;
         "num_calc_v" := num_calc_v; "first_nneg" := first_nneg ]}
  else
    mk_partial np_nmf nonlin_semi_nmf_
      {[ "rcond" := rcond; "eps" := eps;
         "num_iters" := num_iters; "num_calc_u" := num_calc_u;
         "num_calc_v" := num_calc_v; "first_nneg" := first_nneg ]}.

Definition softmax_partial (use_bias : bool)
    (num_iters rcond eps alpha beta : pyval) : partial :=
  if use_bias then
    mk_partial np_biased_nmf softmax_nmf_
      {[ "alpha" := alpha; "beta" := beta; "rcond" := rcond; "eps" := eps;
         "num_iters" := num_iters ]}
  else
    mk_partial np_nmf softmax_nmf_
      {[ "rcond" := rcond; "eps" := eps; "num_iters" := num_iters ]}.

(** The orientation conversion of the immediate branch, by itself: what
    line 81 passes to the kernel as [(a, u, v)], and what lines 82-83 make of
    the kernel's [(u_t, v_t)]. *)
Definition to_solver_orientation (a u v : ndarray) : ndarray * ndarray * ndarray :=
  (T a, T v, T u).

Definition from_solver_orientation (u_t v_t : ndarray) : ndarray * ndarray :=
  (T v_t, T u_t).

(** A kernel that does no solving: it hands back the factors it was given. *)
Definition no_solving (kernel : solver_kernels) : Prop :=
  ∀ md f kw a u v, kernel md f kw a (NdArray u) (NdArray v) = Return (u, v).

(** What the kernel is called on, given the values of [a], [u], [v]. *)
Definition solver_operands (data_format : pyval) (a u v : ndarray)
    : ndarray * ndarray * ndarray :=
  if is_BATCH_FIRST data_format then to_solver_orientation a u v else (a, u, v).

(** What the caller gets for the kernel's [(u, v)] where nothing is checked. *)
Definition solver_results (data_format : pyval) (u_t v_t : ndarray) : ndarray * ndarray :=
  if is_BATCH_FIRST data_format then from_solver_orientation u_t v_t else (u_t, v_t).

(** The pair of graph tensors a deferred call returns. *)
Definition graph_handles (p : partial) (a u v : pyobj) (data_format : pyval)
    : Tensor * Tensor :=
  (shaped (gated_outputs p a u v data_format).1 (dot_shape u),
   shaped (gated_outputs p a u v data_format).2 (dot_shape v)).

(** A solver kernel was invoked during the events [t]. *)
Definition kernel_invoked (t : list event) : Prop :=
  ∃ p a u v, Invoked p a u v ∈ t.

(** A solver callable was constructed during the events [t]. *)
Definition callable_bound (t : list event) : Prop :=
  ∃ p, Bound p ∈ t.

(** The bound kernel [p], called on the arrays [a], [u], [v], returns two
    arrays of which at least one has a NaN or an infinity. *)
Definition poisoned (kernel : solver_kernels) (p : partial) (a u v : ndarray) : Prop :=
  ∃ ou ov,
    invoke kernel p (NdArray a) (NdArray u) (NdArray v) = Return (ou, ov)
    ∧ well_shaped ou ∧ well_shaped ov
    ∧ (has_nonfinite ou = true ∨ has_nonfinite ov = true).

(** *** Stub kernels and sample inputs *)

(** A stub that does no solving. *)
Definition hands_back : solver_kernels :=
  λ _ _ _ _ u v,
    match u, v with
    | NdArray u', NdArray v' => Return (u', v')
    | _, _ => Raise (SolverKernelError "the factors are not arrays")
    end.

(** A stub whose first output has a single NaN entry. *)
Definition returns_nan : solver_kernels :=
  λ _ _ _ _ _ _,
    Return (mk_ndarray 3 1 [[1%float]; [nan]; [2%float]], mk_ndarray 1 2 [[2%float; 3%float]]).

(** A: [2,3], U: [2,1], V: [1,3]. *)
Definition sample_a : ndarray :=
  mk_ndarray 2 3 [[1%float; 2%float; 3%float]; [4%float; 5%float; 6%float]].
Definition sample_u : ndarray := mk_ndarray 2 1 [[1%float]; [2%float]].
Definition sample_v : ndarray := mk_ndarray 1 3 [[1%float; 0%float; 2%float]].

(** Graph placeholders of these shapes, and three of shapes that agree in
    nothing: [2,3], [5,7], [11,13]. *)
Definition ph_a : Tensor := placeholder "a" (matrix_shape (Some 2) (Some 3)).
Definition ph_u : Tensor := placeholder "u" (matrix_shape (Some 2) (Some 1)).
Definition ph_v : Tensor := placeholder "v" (matrix_shape (Some 1) (Some 3)).
Definition ph_u57 : Tensor := placeholder "u" (matrix_shape (Some 5) (Some 7)).
Definition ph_v1113 : Tensor := placeholder "v" (matrix_shape (Some 11) (Some 13)).

Definition sample_feed : gmap string ndarray :=
  {[ "a" := sample_a; "u" := sample_u; "v" := sample_v ]}.

(** No keyword passed, and the keywords [num_calc_u=3, num_calc_v=2]. *)
Definition no_kwargs : kwargs :=
  mk_kwargs None None None None None None None None None None None.
Definition refinement_counts : kwargs :=
  mk_kwargs None None None None None (Some (PyInt 3)) (Some (PyInt 2)) None None None None.

(** A computation that runs after the event [ev]. *)
Definition after {A} (ev : event) (m : M A) : M A := (ev :: m.1, m.2).


(* ===================================================================== *)
(** ** Facts about transposition *)
(* ===================================================================== *)

Section Columns.

Implicit Types (r : list float) (rs cs : list (list float)).

Lemma columns_length n rs :
  Forall (λ r, length r = n) rs → length (columns n rs) = n.
Proof.
  induction 1 as [|r rs Hr _ IH]; simpl.
  - apply length_replicate.
  - rewrite length_zip_with, IH, Hr. lia.
Qed.

Lemma columns_rows_length n rs :
  Forall (λ r, length r = n) rs →
  Forall (λ c, length c = length rs) (columns n rs).
Proof.
  induction 1 as [|r rs Hr _ IH]; simpl.
  - apply Forall_replicate. reflexivity.
  - clear Hr. revert r.
    induction IH as [|c cs Hc _ IHcs]; intros [|x r]; simpl; constructor.
    + simpl. by rewrite Hc.
    + apply IHcs.
Qed.

(** Putting a new first column [r] in front of [cs] adds the row [r]. *)
Lemma columns_zip_cons m r cs :
  length r = length cs →
  columns (S m) (zip_with cons r cs) = r :: columns m cs.
Proof.
  revert cs. induction r as [|x r IH]; intros [|c cs] Hlen; simplify_eq/=.
  - reflexivity.
  - rewrite IH by done. reflexivity.
Qed.

Lemma columns_columns n rs :
  Forall (λ r, length r = n) rs →
  columns (length rs) (columns n rs) = rs.
Proof.
  induction 1 as [|r rs Hr Hrs IH]; simpl.
  - by destruct n.
  - rewrite columns_zip_cons.
    + by rewrite IH.
    + by rewrite columns_length.
Qed.

Lemma existsb_zip_cons (P : float → bool) r cs :
  length r = length cs →
  existsb (existsb P) (zip_with cons r cs) = existsb P r || existsb (existsb P) cs.
Proof.
  revert cs. induction r as [|x r IH]; intros [|c cs] Hlen; simplify_eq/=.
  - reflexivity.
  - rewrite IH by done. destruct (P x), (existsb P c), (existsb P r); reflexivity.
Qed.

Lemma existsb_columns (P : float → bool) n rs :
  Forall (λ r, length r = n) rs →
  existsb (existsb P) (columns n rs) = existsb (existsb P) rs.
Proof.
  induction 1 as [|r rs Hr Hrs IH]; simpl.
  - induction n as [|n IHn]; simpl; done.
  - rewrite existsb_zip_cons by (by rewrite columns_length). by rewrite IH.
Qed.

End Columns.

Lemma well_shapedb_spec m : well_shapedb m = true ↔ well_shaped m.
Proof.
  unfold well_shapedb, well_shaped.
  rewrite andb_true_iff, Nat.eqb_eq, forallb_forall, Forall_forall.
  split; intros [H1 H2]; split; try done; intros r Hr.
  - apply Nat.eqb_eq, H2. by apply list_elem_of_In.
  - apply Nat.eqb_eq, H2. by apply list_elem_of_In.
Qed.

Lemma T_well_shaped m : well_shaped m → well_shaped (T m).
Proof.
  intros [Hn Hr]. split; simpl.
  - by apply columns_length.
  - rewrite <- Hn. by apply columns_rows_length.
Qed.

Lemma T_involutive m : well_shaped m → T (T m) = m.
Proof.
  intros [Hn Hr]. destruct m as [n k rs]; simpl in *. unfold T; simpl.
  f_equal. subst n. by apply columns_columns.
Qed.

Lemma T_has_nonfinite m : well_shaped m → has_nonfinite (T m) = has_nonfinite m.
Proof. intros [_ Hr]. unfold has_nonfinite; simpl. by apply existsb_columns. Qed.

(* ===================================================================== *)
(** ** The entry operations, in terms of their common text *)
(* ===================================================================== *)

Section Unfold.

Variable kernel : solver_kernels.
Implicit Types (a u v : pyobj) (use_bias use_tf : bool).

Lemma assert_bind {A} (c : option bool) (m : M A) :
  (assert_ c;; m) = if truthy c then m else ([], Raise AssertionError).
Proof. unfold assert_. destruct (truthy c); [|reflexivity]. by destruct m. Qed.

Lemma functools_partial_bind {A} md f kw (k : partial → M A) :
  (functools_partial md f kw ≫= k) =
  after (Bound (mk_partial md f kw)) (k (mk_partial md f kw)).
Proof.
  unfold functools_partial, after, mbind, M_bind.
  by destruct (k _).
Qed.

Lemma semi_nmf_eq a u v use_bias use_tf data_format first_nneg num_iters rcond eps alpha beta :
  semi_nmf kernel a u v use_bias use_tf data_format first_nneg num_iters rcond eps alpha beta =
  if truthy (_check_shape a u v use_bias) then
    let p := linear_partial use_bias first_nneg num_iters rcond eps alpha beta in
    after (Bound p) (dispatch kernel p a u v use_tf data_format)
  else ([], Raise AssertionError).
Proof.
  unfold semi_nmf. rewrite assert_bind. destruct (truthy _); [|reflexivity].
  unfold linear_partial.
  destruct use_bias; rewrite functools_partial_bind; cbv zeta; f_equal;
    unfold dispatch, select_backend, immediate, deferred, gated_outputs;
    destruct (isinstance_ndarray a), use_tf, (is_BATCH_FIRST data_format);
    reflexivity.
Qed.

Lemma nonlin_semi_nmf_eq a u v use_bias use_tf data_format first_nneg num_iters
    num_calc_u num_calc_v rcond eps alpha beta :
  nonlin_semi_nmf kernel a u v use_bias use_tf data_format first_nneg num_iters
    num_calc_u num_calc_v rcond eps alpha beta =
  if truthy (_check_shape a u v use_bias) then
    let p := nonlinear_partial use_bias first_nneg num_iters num_calc_u num_calc_v
               rcond eps alpha beta in
    after (Bound p) (dispatch kernel p a u v use_tf data_format)
  else ([], Raise AssertionError).
Proof.
  unfold nonlin_semi_nmf. rewrite assert_bind. destruct (truthy _); [|reflexivity].
  unfold nonlinear_partial.
  destruct use_bias; rewrite functools_partial_bind; cbv zeta; f_equal;
    unfold dispatch, select_backend, immediate, deferred, gated_outputs;
    destruct (isinstance_ndarray a), use_tf, (is_BATCH_FIRST data_format);
    reflexivity.
Qed.

Lemma softmax_nmf_eq a u v use_bias use_tf data_format num_iters rcond eps alpha beta :
  softmax_nmf kernel a u v use_bias use_tf data_format num_iters rcond eps alpha beta =
  let p := softmax_partial use_bias num_iters rcond eps alpha beta in
  after (Bound p) (dispatch kernel p a u v use_tf data_format).
Proof.
  unfold softmax_nmf, softmax_partial.
  destruct use_bias; rewrite functools_partial_bind; cbv zeta; f_equal;
    unfold dispatch, select_backend, immediate, deferred, gated_outputs;
    destruct (isinstance_ndarray a), use_tf, (is_BATCH_FIRST data_format);
    reflexivity.
Qed.

End Unfold.

(* ===================================================================== *)
(** ** The shape validator *)
(* ===================================================================== *)

(** C2.  On matrices whose dimensions are all known, [_check_shape] returns
    [True] exactly when at least one of the three agreements holds:
    rows(A) = rows(U), or cols(A) = cols(V), or
    cols(U) = rows(V) + (1 if use_bias else 0); and it returns [False]
    exactly when none of them holds.  The test is an inclusive or. *)
Theorem check_shape_inclusive_or (a u v : pyobj) (use_bias : bool)
    (ra ca ru cu rv cv : nat) :
  dot_shape a = matrix_shape (Some ra) (Some ca) →
  dot_shape u = matrix_shape (Some ru) (Some cu) →
  dot_shape v = matrix_shape (Some rv) (Some cv) →
  let clauses := ra = ru ∨ ca = cv ∨ cu = rv + (if use_bias then 1 else 0) in
  (_check_shape a u v use_bias = Some true ↔ clauses) ∧
  (_check_shape a u v use_bias = Some false ↔ ¬ clauses).
Proof.
  intros Ha Hu Hv clauses. subst clauses. unfold _check_shape.
  rewrite Ha, Hu, Hv. cbn [dim0 dim1 dim_add].
  replace (Nat.b2n use_bias) with (if use_bias then 1 else 0) by (by destruct use_bias).
  generalize (if use_bias then 1 else 0). intros b. cbn.
  destruct (Nat.eqb_spec ra ru), (Nat.eqb_spec ca cv), (Nat.eqb_spec cu (rv + b));
    cbn; intuition (congruence || lia).
Qed.

(* ===================================================================== *)
(** ** The orientation conversion *)
(* ===================================================================== *)

Lemma check_shape_rows (a u v : ndarray) (use_bias : bool) :
  nrows a = nrows u →
  truthy (_check_shape (NdArray a) (NdArray u) (NdArray v) use_bias) = true.
Proof.
  intros H. unfold _check_shape; cbn. rewrite H, Nat.eqb_refl. reflexivity.
Qed.

Section Immediate.

Variable kernel : solver_kernels.

(** The immediate branch on arrays, sample-first: the kernel is called on
    the converted operands and its factors are converted back. *)
Lemma immediate_batch_first p (a u v : ndarray) data_format :
  is_BATCH_FIRST data_format = true →
  immediate kernel p (NdArray a) (NdArray u) (NdArray v) data_format =
  ([Invoked p (NdArray (T a)) (NdArray (T v)) (NdArray (T u))],
   (λ uv, (NdArray (T uv.2), NdArray (T uv.1))) <$>
   invoke kernel p (NdArray (T a)) (NdArray (T v)) (NdArray (T u))).
Proof.
  intros H. unfold immediate. rewrite H. cbn.
  by destruct (invoke _ _ _ _ _) as [e|[u_t v_t]].
Qed.

(** The immediate branch, feature-first: the operands go to the kernel as
    they are and its factors come back as they are. *)
Lemma immediate_native p (a u v : pyobj) data_format :
  is_BATCH_FIRST data_format = false →
  immediate kernel p a u v data_format =
  ([Invoked p a u v],
   (λ uv, (NdArray uv.1, NdArray uv.2)) <$> invoke kernel p a u v).
Proof.
  intros H. unfold immediate. rewrite H. cbn.
  by destruct (invoke _ _ _ _ _) as [e|[u_t v_t]].
Qed.

End Immediate.

Section RoundTrip.

Variable kernel : solver_kernels.
Variables first_nneg num_iters num_calc_u num_calc_v rcond eps alpha beta : pyval.

(** C1.  For A of shape [m,n], U of shape [m,k] and V of shape [k,n],
    converting to the solver's orientation (transpose A, exchange U and V,
    transpose each) and back gives (U, V) again, entry by entry; and so
    does each entry operation on the immediate backend, sample-first, when
    the kernel does no solving. *)
Theorem orientation_round_trip (a u v : ndarray) (m n k : nat) (use_bias : bool) :
  shape a = (m, n) → shape u = (m, k) → shape v = (k, n) →
  well_shaped u → well_shaped v →
  (let '(_, l, r) := to_solver_orientation a u v in from_solver_orientation l r) = (u, v)
  ∧ (no_solving kernel →
     (semi_nmf kernel (NdArray a) (NdArray u) (NdArray v) use_bias false BATCH_FIRST
        first_nneg num_iters rcond eps alpha beta).2
       = Return (NdArray u, NdArray v)
     ∧ (nonlin_semi_nmf kernel (NdArray a) (NdArray u) (NdArray v) use_bias false BATCH_FIRST
        first_nneg num_iters num_calc_u num_calc_v rcond eps alpha beta).2
       = Return (NdArray u, NdArray v)
     ∧ (softmax_nmf kernel (NdArray a) (NdArray u) (NdArray v) use_bias false BATCH_FIRST
        num_iters rcond eps alpha beta).2
       = Return (NdArray u, NdArray v)).
Proof.
  intros Ha Hu Hv Wu Wv.
  assert (Hrows : nrows a = nrows u) by (injection Ha; injection Hu; congruence).
  split.
  - cbn. unfold from_solver_orientation. by rewrite !T_involutive.
  - intros Hk.
    rewrite semi_nmf_eq, nonlin_semi_nmf_eq, softmax_nmf_eq.
    rewrite (check_shape_rows _ _ _ _ Hrows). cbv zeta.
    unfold dispatch; cbn [select_backend isinstance_ndarray negb andb after snd].
    rewrite !immediate_batch_first by reflexivity.
    cbn [snd]. unfold invoke. rewrite !Hk. cbn. by rewrite !T_involutive.
Qed.

End RoundTrip.

(* ===================================================================== *)
(** ** The backends *)
(* ===================================================================== *)

Section Backends.

Variable kernel : solver_kernels.
Implicit Types (a u v : pyobj) (p : partial) (feed : gmap string ndarray).

Lemma gated_outputs_shape p a u v data_format :
  get_shape (gated_outputs p a u v data_format).1 = unknown_shape ∧
  get_shape (gated_outputs p a u v data_format).2 = unknown_shape.
Proof. unfold gated_outputs. by destruct (is_BATCH_FIRST data_format). Qed.

(** Building the graph never fails and invokes nothing. *)
Lemma deferred_eq p a u v data_format :
  deferred p a u v data_format =
  ([], Return (TfTensor (graph_handles p a u v data_format).1,
               TfTensor (graph_handles p a u v data_format).2)).
Proof.
  unfold deferred, set_shape, graph_handles.
  destruct (gated_outputs_shape p a u v data_format) as [-> ->].
  reflexivity.
Qed.

Lemma dispatch_deferred p a u v data_format :
  dispatch kernel p a u v true data_format =
  ([], Return (TfTensor (graph_handles p a u v data_format).1,
               TfTensor (graph_handles p a u v data_format).2)).
Proof.
  unfold dispatch, select_backend. rewrite andb_false_r. apply deferred_eq.
Qed.

Lemma dispatch_immediate p (m : ndarray) u v data_format :
  dispatch kernel p (NdArray m) u v false data_format =
  immediate kernel p (NdArray m) u v data_format.
Proof. reflexivity. Qed.

Lemma select_backend_immediate a use_tf :
  select_backend a use_tf = Immediate ↔ isinstance_ndarray a = true ∧ use_tf = false.
Proof.
  unfold select_backend.
  destruct (isinstance_ndarray a), use_tf; cbn; intuition congruence.
Qed.

(** The events of the immediate branch: at most the one invocation. *)
Lemma immediate_events p a u v data_format :
  (immediate kernel p a u v data_format).1 = [] ∨
  ∃ x y z, (immediate kernel p a u v data_format).1 = [Invoked p x y z].
Proof.
  unfold immediate. destruct (is_BATCH_FIRST data_format).
  - destruct a as [a|a]; [|by left].
    destruct v as [v|v]; [|by left].
    destruct u as [u|u]; [|by left].
    right. eexists _, _, _. cbn.
    by destruct (invoke _ _ _ _ _) as [e|[u_t v_t]].
  - right. eexists _, _, _. cbn.
    by destruct (invoke _ _ _ _ _) as [e|[u_t v_t]].
Qed.

(** The backend dispatch constructs no callable. *)
Lemma dispatch_binds_nothing p a u v use_tf data_format :
  ¬ callable_bound (dispatch kernel p a u v use_tf data_format).1.
Proof.
  intros [q Hq]. unfold dispatch in Hq.
  destruct (select_backend a use_tf).
  - destruct (immediate_events p a u v data_format) as [E|(x & y & z & E)];
      rewrite E in Hq.
    + by apply elem_of_nil in Hq.
    + by apply list_elem_of_singleton in Hq.
  - rewrite deferred_eq in Hq. by apply elem_of_nil in Hq.
  - by apply elem_of_nil in Hq.
Qed.

(** Only the immediate backend invokes a kernel. *)
Lemma dispatch_invokes p a u v use_tf data_format :
  kernel_invoked (dispatch kernel p a u v use_tf data_format).1 →
  select_backend a use_tf = Immediate.
Proof.
  intros (q & x & y & z & Hq). unfold dispatch in Hq.
  destruct (select_backend a use_tf); [done| |].
  - rewrite deferred_eq in Hq. by apply elem_of_nil in Hq.
  - by apply elem_of_nil in Hq.
Qed.

(** A kernel the dispatch invokes is the bound one. *)
Lemma dispatch_invokes_bound p q a u v use_tf data_format x y z :
  Invoked q x y z ∈ (dispatch kernel p a u v use_tf data_format).1 → q = p.
Proof.
  intros Hq. unfold dispatch in Hq. destruct (select_backend a use_tf).
  - destruct (immediate_events p a u v data_format) as [E|(x' & y' & z' & E)];
      rewrite E in Hq.
    + by apply elem_of_nil in Hq.
    + apply list_elem_of_singleton in Hq. congruence.
  - rewrite deferred_eq in Hq. by apply elem_of_nil in Hq.
  - by apply elem_of_nil in Hq.
Qed.

(** The callables that occur in the events of a dispatch that follows the
    construction of [p]: [p] alone. *)
Lemma after_bound_dispatch_events p q a u v use_tf data_format :
  Bound q ∈ (after (Bound p) (dispatch kernel p a u v use_tf data_format)).1
  ∨ (∃ x y z,
      Invoked q x y z ∈ (after (Bound p) (dispatch kernel p a u v use_tf data_format)).1) →
  q = p.
Proof.
  cbn [after fst]. intros [Hq|(x & y & z & Hq)]; apply elem_of_cons in Hq as [Hq|Hq].
  - congruence.
  - destruct (dispatch_binds_nothing p a u v use_tf data_format). by exists q.
  - done.
  - by apply dispatch_invokes_bound in Hq.
Qed.

Lemma after_bound_invoked {A} p (m : M A) :
  kernel_invoked (after (Bound p) m).1 → kernel_invoked m.1.
Proof.
  intros (q & x & y & z & Hq). exists q, x, y, z.
  cbn in Hq. apply elem_of_cons in Hq as [Hq|Hq]; [done|exact Hq].
Qed.

End Backends.

(* ===================================================================== *)
(** ** Validation, dispatch and the choice of the backend *)
(* ===================================================================== *)

Section Dispatch.

Variable kernel : solver_kernels.
Variables first_nneg num_iters num_calc_u num_calc_v rcond eps alpha beta : pyval.
Implicit Types (a u v : pyobj) (use_bias use_tf : bool) (data_format : pyval).

Local Abbreviation linear a u v use_bias use_tf data_format :=
  (semi_nmf kernel a u v use_bias use_tf data_format
     first_nneg num_iters rcond eps alpha beta).
Local Abbreviation nonlinear a u v use_bias use_tf data_format :=
  (nonlin_semi_nmf kernel a u v use_bias use_tf data_format
     first_nneg num_iters num_calc_u num_calc_v rcond eps alpha beta).
Local Abbreviation softmax a u v use_bias use_tf data_format :=
  (softmax_nmf kernel a u v use_bias use_tf data_format
     num_iters rcond eps alpha beta).
Local Abbreviation linear_p use_bias :=
  (linear_partial use_bias first_nneg num_iters rcond eps alpha beta).
Local Abbreviation nonlinear_p use_bias :=
  (nonlinear_partial use_bias first_nneg num_iters num_calc_u num_calc_v
     rcond eps alpha beta).
Local Abbreviation softmax_p use_bias :=
  (softmax_partial use_bias num_iters rcond eps alpha beta).

(** C6.  When the shape validator does not return true, the linear and the
    nonlinear entry operation fail with the assertion's error and nothing
    else has happened: no solver callable was constructed, none invoked. *)
Theorem shape_failure_before_work a u v use_bias use_tf data_format :
  truthy (_check_shape a u v use_bias) = false →
  linear a u v use_bias use_tf data_format = ([], Raise AssertionError) ∧
  nonlinear a u v use_bias use_tf data_format = ([], Raise AssertionError).
Proof.
  intros H. rewrite semi_nmf_eq, nonlin_semi_nmf_eq, H. done.
Qed.

(** C5.  On inputs that fail the shape check the linear and the nonlinear
    entry operation stop at the assertion, before anything is bound, while
    the softmax entry operation, which has no such check, binds its solver
    callable and goes on to the choice of the backend. *)
Theorem validation_asymmetry a u v use_bias use_tf data_format :
  truthy (_check_shape a u v use_bias) = false →
  linear a u v use_bias use_tf data_format = ([], Raise AssertionError) ∧
  nonlinear a u v use_bias use_tf data_format = ([], Raise AssertionError) ∧
  softmax a u v use_bias use_tf data_format =
    after (Bound (softmax_p use_bias))
      (dispatch kernel (softmax_p use_bias) a u v use_tf data_format).
Proof.
  intros H. rewrite semi_nmf_eq, nonlin_semi_nmf_eq, softmax_nmf_eq, H. done.
Qed.

(** C9, as the code has it.  On a call that selects neither backend ([a] is
    not an array and [use_tf] is unset) the softmax entry operation fails
    with [NotImplementedError]; the linear and the nonlinear one do so
    when the shape check passes, and fail with the assertion's error when
    it does not.  In every case no solver kernel is invoked. *)
Theorem unsupported_backend a u v use_bias use_tf data_format :
  select_backend a use_tf = Unsupported →
  let unsupported := Raise (NotImplementedError "Never implement other type matrix") in
  softmax a u v use_bias use_tf data_format = ([Bound (softmax_p use_bias)], unsupported) ∧
  linear a u v use_bias use_tf data_format =
    (if truthy (_check_shape a u v use_bias)
     then ([Bound (linear_p use_bias)], unsupported)
     else ([], Raise AssertionError)) ∧
  nonlinear a u v use_bias use_tf data_format =
    (if truthy (_check_shape a u v use_bias)
     then ([Bound (nonlinear_p use_bias)], unsupported)
     else ([], Raise AssertionError)) ∧
  ¬ kernel_invoked (softmax a u v use_bias use_tf data_format).1 ∧
  ¬ kernel_invoked (linear a u v use_bias use_tf data_format).1 ∧
  ¬ kernel_invoked (nonlinear a u v use_bias use_tf data_format).1.
Proof.
  intros H unsupported.
  assert (D : ∀ p, dispatch kernel p a u v use_tf data_format = ([], unsupported))
    by (intros p; unfold dispatch; by rewrite H).
  assert (N : ∀ p, ¬ kernel_invoked [Bound p]).
  { intros p (q & x & y & z & Hq). by apply list_elem_of_singleton in Hq. }
  assert (N0 : ¬ kernel_invoked []).
  { intros (q & x & y & z & Hq). by apply elem_of_nil in Hq. }
  rewrite semi_nmf_eq, nonlin_semi_nmf_eq, softmax_nmf_eq. cbv zeta.
  rewrite !D. unfold after; cbn [fst snd].
  destruct (truthy _); cbn [fst]; auto 10.
Qed.

(** C10.  The flag comes before the type of [a]: with [a] a NumPy array and
    [use_tf] set, each entry operation that gets as far as the dispatch
    returns the graph tensors of the deferred branch and invokes no
    kernel; and a kernel is invoked during a call only if [a] is an array
    and [use_tf] is unset. *)
Theorem flag_precedes_array_type (m : ndarray) a u v use_bias use_tf data_format :
  (let handles p :=
     Return (TfTensor (graph_handles p (NdArray m) u v data_format).1,
             TfTensor (graph_handles p (NdArray m) u v data_format).2) in
   softmax (NdArray m) u v use_bias true data_format =
     ([Bound (softmax_p use_bias)], handles (softmax_p use_bias)) ∧
   (truthy (_check_shape (NdArray m) u v use_bias) = true →
    linear (NdArray m) u v use_bias true data_format =
      ([Bound (linear_p use_bias)], handles (linear_p use_bias)) ∧
    nonlinear (NdArray m) u v use_bias true data_format =
      ([Bound (nonlinear_p use_bias)], handles (nonlinear_p use_bias)))) ∧
  (kernel_invoked (linear a u v use_bias use_tf data_format).1 ∨
   kernel_invoked (nonlinear a u v use_bias use_tf data_format).1 ∨
   kernel_invoked (softmax a u v use_bias use_tf data_format).1 →
   isinstance_ndarray a = true ∧ use_tf = false).
Proof.
  split.
  - cbv zeta. rewrite semi_nmf_eq, nonlin_semi_nmf_eq, softmax_nmf_eq. cbv zeta.
    rewrite !dispatch_deferred. split; [done|]. by intros ->.
  - rewrite semi_nmf_eq, nonlin_semi_nmf_eq, softmax_nmf_eq. cbv zeta.
    intros H. apply select_backend_immediate.
    destruct (truthy _).
    + destruct H as [H|[H|H]];
        apply after_bound_invoked, dispatch_invokes in H; exact H.
    + destruct H as [H|[H|H]].
      * destruct H as (q & x & y & z & Hq). by apply elem_of_nil in Hq.
      * destruct H as (q & x & y & z & Hq). by apply elem_of_nil in Hq.
      * apply after_bound_invoked, dispatch_invokes in H; exact H.
Qed.

(** C8.  Feature-first on the immediate backend: with [a] an array,
    [use_tf] unset and [data_format] not [BATCH_FIRST], each entry operation
    calls its bound kernel on [a], [u], [v] as they are, once, and returns
    what the kernel returns (or raises what it raises): no transpose, no
    exchange of the factors. *)
Theorem feature_first_pass_through (m : ndarray) u v use_bias data_format :
  is_BATCH_FIRST data_format = false →
  let a := NdArray m in
  let passed p :=
    ([Bound p; Invoked p a u v],
     (λ uv : ndarray * ndarray, (NdArray uv.1, NdArray uv.2)) <$>
     invoke kernel p a u v) in
  softmax a u v use_bias false data_format = passed (softmax_p use_bias) ∧
  (truthy (_check_shape a u v use_bias) = true →
   linear a u v use_bias false data_format = passed (linear_p use_bias) ∧
   nonlinear a u v use_bias false data_format = passed (nonlinear_p use_bias)).
Proof.
  intros H a passed. subst a passed. cbv beta.
  rewrite semi_nmf_eq, nonlin_semi_nmf_eq, softmax_nmf_eq. cbv zeta.
  rewrite !dispatch_immediate, !immediate_native by exact H.
  split; [done|]. by intros ->.
Qed.

(** C4.  On the deferred backend ([use_tf] set) each entry operation returns
    two graph tensors whose static shapes are the shapes read from the
    inputs [u] and [v] before the graph was built, although the tensors
    these shapes were set on, which come from the [tf.py_func] node, had no
    static shape of their own. *)
Theorem shape_reattachment a u v use_bias data_format :
  let reattached (r : M (pyobj * pyobj)) :=
    ∃ gu gv, r.2 = Return (TfTensor (shaped gu (dot_shape u)),
                           TfTensor (shaped gv (dot_shape v)))
             ∧ get_shape (shaped gu (dot_shape u)) = dot_shape u
             ∧ get_shape (shaped gv (dot_shape v)) = dot_shape v
             ∧ get_shape gu = unknown_shape
             ∧ get_shape gv = unknown_shape in
  reattached (softmax a u v use_bias true data_format) ∧
  (truthy (_check_shape a u v use_bias) = true →
   reattached (linear a u v use_bias true data_format) ∧
   reattached (nonlinear a u v use_bias true data_format)).
Proof.
  intros reattached.
  assert (R : ∀ p, reattached (after (Bound p) (dispatch kernel p a u v true data_format))).
  { intros p. rewrite dispatch_deferred.
    destruct (gated_outputs_shape p a u v data_format) as [Hu Hv].
    eexists _, _. cbn. eauto. }
  rewrite semi_nmf_eq, nonlin_semi_nmf_eq, softmax_nmf_eq. cbv zeta.
  split; [apply R|]. intros ->. split; apply R.
Qed.

End Dispatch.

(* ===================================================================== *)
(** ** The validity gate of the deferred backend *)
(* ===================================================================== *)

Section Gate.

Variable kernel : solver_kernels.
Variables first_nneg num_iters num_calc_u num_calc_v rcond eps alpha beta : pyval.
Implicit Types (a u v : pyobj) (p : partial) (feed : gmap string ndarray).

Local Abbreviation linear a u v use_bias use_tf data_format :=
  (semi_nmf kernel a u v use_bias use_tf data_format
     first_nneg num_iters rcond eps alpha beta).
Local Abbreviation nonlinear a u v use_bias use_tf data_format :=
  (nonlin_semi_nmf kernel a u v use_bias use_tf data_format
     first_nneg num_iters num_calc_u num_calc_v rcond eps alpha beta).
Local Abbreviation softmax a u v use_bias use_tf data_format :=
  (softmax_nmf kernel a u v use_bias use_tf data_format
     num_iters rcond eps alpha beta).
Local Abbreviation linear_p use_bias :=
  (linear_partial use_bias first_nneg num_iters rcond eps alpha beta).
Local Abbreviation nonlinear_p use_bias :=
  (nonlinear_partial use_bias first_nneg num_iters num_calc_u num_calc_v
     rcond eps alpha beta).
Local Abbreviation softmax_p use_bias :=
  (softmax_partial use_bias num_iters rcond eps alpha beta).

(** A static shape does not change the value. *)
Lemma run_shaped feed (y : Tensor) s :
  run kernel feed (shaped y s) = run kernel feed y.
Proof. reflexivity. Qed.

(** What [tf.check_numerics] lets through is finite. *)
Lemma run_check_numerics feed (y : Tensor) message x :
  run kernel feed (check_numerics y message) = Return x → has_nonfinite x = false.
Proof.
  cbn. destruct (run kernel feed y) as [e|m]; cbn; [done|].
  destruct (has_nonfinite m) eqn:E; [done|]. by intros [= <-].
Qed.

Lemma run_graph_handles_finite feed p a u v data_format x :
  run kernel feed (graph_handles p a u v data_format).1 = Return x ∨
  run kernel feed (graph_handles p a u v data_format).2 = Return x →
  has_nonfinite x = false.
Proof.
  unfold graph_handles, gated_outputs.
  destruct (is_BATCH_FIRST data_format); cbn [fst snd];
    intros [H|H]; rewrite run_shaped in H; eapply run_check_numerics; exact H.
Qed.

(** The operands of the kernel and what is made of its outputs, one shape
    for both orientations. *)
Lemma poisoned_results p data_format (va vu vv : ndarray) :
  (let '(x, y, z) := solver_operands data_format va vu vv in poisoned kernel p x y z) →
  ∃ ou ov,
    (let '(x, y, z) := solver_operands data_format va vu vv in
     invoke kernel p (NdArray x) (NdArray y) (NdArray z)) = Return (ou, ov)
    ∧ (has_nonfinite (solver_results data_format ou ov).1 = true
       ∨ has_nonfinite (solver_results data_format ou ov).2 = true).
Proof.
  unfold solver_operands, solver_results, to_solver_orientation, from_solver_orientation.
  destruct (is_BATCH_FIRST data_format);
    intros (ou & ov & E & Wu & Wv & Hbad); exists ou, ov; (split; [exact E|]);
    cbn [fst snd].
  - rewrite !T_has_nonfinite by done. tauto.
  - exact Hbad.
Qed.

(** The values of the two returned tensors, when the inputs have the values
    [va], [vu], [vv] and the kernel returns [(ou, ov)] on the operands made
    of them. *)
Lemma run_graph_handles feed p a u v data_format (va vu vv ou ov : ndarray) :
  run kernel feed (convert_to_tensor a) = Return va →
  run kernel feed (convert_to_tensor u) = Return vu →
  run kernel feed (convert_to_tensor v) = Return vv →
  (let '(x, y, z) := solver_operands data_format va vu vv in
   invoke kernel p (NdArray x) (NdArray y) (NdArray z)) = Return (ou, ov) →
  let gate message (m : ndarray) :=
    if has_nonfinite m then Raise (InvalidArgumentError message) else Return m in
  run kernel feed (graph_handles p a u v data_format).1
    = gate "u" (solver_results data_format ou ov).1 ∧
  run kernel feed (graph_handles p a u v data_format).2
    = gate "v" (solver_results data_format ou ov).2.
Proof.
  intros Ha Hu Hv. unfold solver_operands, solver_results, graph_handles, gated_outputs.
  destruct (is_BATCH_FIRST data_format); cbn; rewrite Ha, Hu, Hv; cbn;
    intros ->; cbn; done.
Qed.

(** A deferred call whose bound kernel is poisoned: running the two returned
    tensors fails in [tf.check_numerics]. *)
Lemma deferred_fails feed p a u v data_format (va vu vv : ndarray) :
  run kernel feed (convert_to_tensor a) = Return va →
  run kernel feed (convert_to_tensor u) = Return vu →
  run kernel feed (convert_to_tensor v) = Return vv →
  (let '(x, y, z) := solver_operands data_format va vu vv in poisoned kernel p x y z) →
  ∃ message,
    run2 kernel feed (graph_handles p a u v data_format)
      = Raise (InvalidArgumentError message).
Proof.
  intros Ha Hu Hv Hk.
  destruct (poisoned_results p data_format va vu vv Hk) as (ou & ov & Hcall & Hbad).
  destruct (run_graph_handles feed p a u v data_format va vu vv ou ov Ha Hu Hv Hcall)
    as [Eu Ev].
  unfold run2. rewrite Eu, Ev.
  destruct (has_nonfinite (solver_results data_format ou ov).1) eqn:Bu; [by exists "u"|].
  destruct Hbad as [Hbad|Hbad]; [done|]. rewrite Hbad. by exists "v".
Qed.

(** The immediate branch on arrays, for both orientations. *)
Lemma immediate_arrays p (va vu vv : ndarray) data_format :
  (immediate kernel p (NdArray va) (NdArray vu) (NdArray vv) data_format).2 =
  (λ uv, (NdArray (solver_results data_format uv.1 uv.2).1,
          NdArray (solver_results data_format uv.1 uv.2).2)) <$>
    (let '(x, y, z) := solver_operands data_format va vu vv in
     invoke kernel p (NdArray x) (NdArray y) (NdArray z)).
Proof.
  unfold solver_operands, solver_results, to_solver_orientation, from_solver_orientation.
  destruct (is_BATCH_FIRST data_format) eqn:B.
  - by rewrite immediate_batch_first.
  - by rewrite immediate_native.
Qed.

(** C3.  Let the inputs of a deferred call have the values [va], [vu], [vv]
    when the graph is run, and let the output of the bound kernel on the
    operands made of them contain a NaN or an infinity.  Then running the
    two tensors the entry operation returned on the deferred backend fails
    with [InvalidArgumentError], the error of [tf.check_numerics]; whatever
    the feed, a value that does come out of a returned tensor is finite.
    The same kernel through the immediate backend, on the same values,
    returns its output as it is, non-finite entry included. *)
Theorem validity_gate a u v use_bias data_format feed (va vu vv : ndarray) :
  run kernel feed (convert_to_tensor a) = Return va →
  run kernel feed (convert_to_tensor u) = Return vu →
  run kernel feed (convert_to_tensor v) = Return vv →
  let bad p :=
    let '(x, y, z) := solver_operands data_format va vu vv in poisoned kernel p x y z in
  let fails (r : M (pyobj * pyobj)) :=
    ∃ tu tv message,
      r.2 = Return (TfTensor tu, TfTensor tv)
      ∧ run2 kernel feed (tu, tv) = Raise (InvalidArgumentError message)
      ∧ ∀ feed' x, run kernel feed' tu = Return x ∨ run kernel feed' tv = Return x →
                   has_nonfinite x = false in
  let passes p (r : M (pyobj * pyobj)) :=
    ∃ ou ov,
      (let '(x, y, z) := solver_operands data_format va vu vv in
       invoke kernel p (NdArray x) (NdArray y) (NdArray z)) = Return (ou, ov)
      ∧ r.2 = Return (NdArray (solver_results data_format ou ov).1,
                      NdArray (solver_results data_format ou ov).2)
      ∧ (has_nonfinite (solver_results data_format ou ov).1 = true
         ∨ has_nonfinite (solver_results data_format ou ov).2 = true) in
  let va' := NdArray va in
  let vu' := NdArray vu in
  let vv' := NdArray vv in
  (bad (softmax_p use_bias) →
     fails (softmax a u v use_bias true data_format) ∧
     passes (softmax_p use_bias) (softmax va' vu' vv' use_bias false data_format)) ∧
  (bad (linear_p use_bias) →
     (truthy (_check_shape a u v use_bias) = true →
        fails (linear a u v use_bias true data_format)) ∧
     (truthy (_check_shape va' vu' vv' use_bias) = true →
        passes (linear_p use_bias) (linear va' vu' vv' use_bias false data_format))) ∧
  (bad (nonlinear_p use_bias) →
     (truthy (_check_shape a u v use_bias) = true →
        fails (nonlinear a u v use_bias true data_format)) ∧
     (truthy (_check_shape va' vu' vv' use_bias) = true →
        passes (nonlinear_p use_bias) (nonlinear va' vu' vv' use_bias false data_format))).
Proof.
  intros Ha Hu Hv bad fails passes va' vu' vv'.
  assert (F : ∀ p, bad p → fails (after (Bound p) (dispatch kernel p a u v true data_format))).
  { intros p Hk. rewrite dispatch_deferred. cbn [after snd].
    destruct (deferred_fails feed p a u v data_format va vu vv Ha Hu Hv Hk)
      as [message Hm].
    exists (graph_handles p a u v data_format).1,
           (graph_handles p a u v data_format).2, message.
    split; [reflexivity|]. split; [exact Hm|].
    intros feed' x. apply run_graph_handles_finite. }
  assert (P : ∀ p, bad p →
    passes p (after (Bound p) (dispatch kernel p va' vu' vv' false data_format))).
  { intros p Hk. subst va' vu' vv'. rewrite dispatch_immediate.
    destruct (poisoned_results p data_format va vu vv Hk) as (ou & ov & Hcall & Hbad).
    exists ou, ov. split; [exact Hcall|]. split; [|exact Hbad].
    cbn [after snd]. rewrite immediate_arrays, Hcall. reflexivity. }
  rewrite !semi_nmf_eq, !nonlin_semi_nmf_eq, !softmax_nmf_eq. cbv zeta.
  split; [|split]; intros Hk.
  - split; [by apply F|by apply P].
  - split; intros ->; [by apply F|by apply P].
  - split; intros ->; [by apply F|by apply P].
Qed.

End Gate.

(* ===================================================================== *)
(** ** What each variant binds *)
(* ===================================================================== *)

Section Variants.

Variable kernel : solver_kernels.
Variables first_nneg num_iters num_calc_u num_calc_v rcond eps alpha beta : pyval.
Implicit Types (a u v : pyobj) (use_bias use_tf : bool) (data_format : pyval).

Local Abbreviation linear a u v use_bias use_tf data_format :=
  (semi_nmf kernel a u v use_bias use_tf data_format
     first_nneg num_iters rcond eps alpha beta).
Local Abbreviation nonlinear a u v use_bias use_tf data_format :=
  (nonlin_semi_nmf kernel a u v use_bias use_tf data_format
     first_nneg num_iters num_calc_u num_calc_v rcond eps alpha beta).
Local Abbreviation linear_p use_bias :=
  (linear_partial use_bias first_nneg num_iters rcond eps alpha beta).
Local Abbreviation nonlinear_p use_bias :=
  (nonlinear_partial use_bias first_nneg num_iters num_calc_u num_calc_v
     rcond eps alpha beta).

Lemma nonlinear_keywords use_bias :
  p_keywords (nonlinear_p use_bias) !! "num_calc_u" = Some num_calc_u ∧
  p_keywords (nonlinear_p use_bias) !! "num_calc_v" = Some num_calc_v.
Proof. by destruct use_bias. Qed.

Lemma linear_keywords use_bias :
  p_keywords (linear_p use_bias) !! "num_calc_u" = None ∧
  p_keywords (linear_p use_bias) !! "num_calc_v" = None.
Proof. by destruct use_bias. Qed.

(** Without the two counts the nonlinear keywords are the linear ones. *)
Lemma nonlinear_keywords_rest use_bias :
  delete "num_calc_u" (delete "num_calc_v" (p_keywords (nonlinear_p use_bias)))
  = p_keywords (linear_p use_bias).
Proof. by destruct use_bias. Qed.

(** The only callable in the events of a nonlinear call is the one with
    the two counts; the only one in a linear call is the one without. *)
Lemma nonlinear_events a u v use_bias use_tf data_format q :
  Bound q ∈ (nonlinear a u v use_bias use_tf data_format).1
  ∨ (∃ x y z, Invoked q x y z ∈ (nonlinear a u v use_bias use_tf data_format).1) →
  q = nonlinear_p use_bias.
Proof.
  rewrite nonlin_semi_nmf_eq. destruct (truthy _).
  - apply after_bound_dispatch_events.
  - intros [Hq|(x & y & z & Hq)]; by apply elem_of_nil in Hq.
Qed.

Lemma linear_events a u v use_bias use_tf data_format q :
  Bound q ∈ (linear a u v use_bias use_tf data_format).1
  ∨ (∃ x y z, Invoked q x y z ∈ (linear a u v use_bias use_tf data_format).1) →
  q = linear_p use_bias.
Proof.
  rewrite semi_nmf_eq. destruct (truthy _).
  - apply after_bound_dispatch_events.
  - intros [Hq|(x & y & z & Hq)]; by apply elem_of_nil in Hq.
Qed.

Lemma nonlinear_binds a u v use_bias use_tf data_format :
  truthy (_check_shape a u v use_bias) = true →
  Bound (nonlinear_p use_bias) ∈ (nonlinear a u v use_bias use_tf data_format).1.
Proof. rewrite nonlin_semi_nmf_eq. intros ->. apply list_elem_of_here. Qed.

Lemma linear_binds a u v use_bias use_tf data_format :
  truthy (_check_shape a u v use_bias) = true →
  Bound (linear_p use_bias) ∈ (linear a u v use_bias use_tf data_format).1.
Proof. rewrite semi_nmf_eq. intros ->. apply list_elem_of_here. Qed.

End Variants.

(** C7, as the code has it.  The callable the nonlinear entry operation
    constructs and invokes carries [num_calc_u] and [num_calc_v] with the
    values of the call, and these two keywords are all it has over the
    callable of the linear entry operation, which carries neither.  The
    linear entry operation has no such parameters: a call that passes one of
    them is refused with a [TypeError] before anything is done. *)
Theorem variant_isolation (kernel : solver_kernels) (a u v : pyobj)
    (use_bias use_tf : bool)
    (data_format first_nneg num_iters num_calc_u num_calc_v rcond eps alpha beta : pyval)
    (kw : kwargs) :
  let nonlinear :=
    nonlin_semi_nmf kernel a u v use_bias use_tf data_format
      first_nneg num_iters num_calc_u num_calc_v rcond eps alpha beta in
  let linear :=
    semi_nmf kernel a u v use_bias use_tf data_format
      first_nneg num_iters rcond eps alpha beta in
  let used (q : partial) (r : M (pyobj * pyobj)) :=
    Bound q ∈ r.1 ∨ (∃ x y z, Invoked q x y z ∈ r.1) in
  (∀ q, used q nonlinear →
        p_keywords q !! "num_calc_u" = Some num_calc_u ∧
        p_keywords q !! "num_calc_v" = Some num_calc_v) ∧
  (∀ q, used q linear →
        p_keywords q !! "num_calc_u" = None ∧
        p_keywords q !! "num_calc_v" = None) ∧
  (∀ qn ql, used qn nonlinear → used ql linear →
        delete "num_calc_u" (delete "num_calc_v" (p_keywords qn)) = p_keywords ql) ∧
  (truthy (_check_shape a u v use_bias) = true →
     (∃ q, Bound q ∈ nonlinear.1) ∧ (∃ q, Bound q ∈ linear.1)) ∧
  (is_Some (kw_num_calc_u kw) ∨ is_Some (kw_num_calc_v kw) →
     call_semi_nmf kernel a u v kw
       = ([], Raise (TypeError "got an unexpected keyword argument"))).
Proof.
    intros nonlinear linear used. subst nonlinear linear used. cbv beta.
  split; [|split; [|split; [|split]]].
  - intros q Hq. apply nonlinear_events in Hq. subst q. apply nonlinear_keywords.
  - intros q Hq. apply linear_events in Hq. subst q. apply linear_keywords.
  - intros qn ql Hn Hl. apply nonlinear_events in Hn. apply linear_events in Hl.
    subst qn ql. apply nonlinear_keywords_rest.
  - intros Hs. split; eexists.
    + by apply nonlinear_binds.
    + by apply linear_binds.
  - intros Hkw. unfold call_semi_nmf.
    destruct Hkw as [Hkw|Hkw].
    + by rewrite (bool_decide_eq_true_2 _ Hkw).
    + rewrite (bool_decide_eq_true_2 _ Hkw), orb_true_r. done.
Qed.

(* ===================================================================== *)
(** ** The theorems at sample inputs *)
(* ===================================================================== *)

Lemma sample_u_well_shaped : well_shaped sample_u.
Proof. by apply well_shapedb_spec. Qed.

Lemma sample_v_well_shaped : well_shaped sample_v.
Proof. by apply well_shapedb_spec. Qed.

Lemma hands_back_no_solving : no_solving hands_back.
Proof. by intros md f kw a u v. Qed.

(** A call without keywords is the call with the defaults of the signature. *)
Lemma call_semi_nmf_defaults :
  call_semi_nmf hands_back (NdArray sample_a) (NdArray sample_u) (NdArray sample_v) no_kwargs
  = semi_nmf hands_back (NdArray sample_a) (NdArray sample_u) (NdArray sample_v)
      false false BATCH_FIRST default_first_nneg default_num_iters
      default_rcond default_eps default_alpha default_beta.
Proof. reflexivity. Qed.

(** A:[10,4], U:[10,3], V:[3,4] passes by its first clause, and
    the shapes [2,3], [5,7], [11,13] fail all three. *)
Lemma check_shape_samples :
  _check_shape (TfTensor (placeholder "a" (matrix_shape (Some 10) (Some 4))))
               (TfTensor (placeholder "u" (matrix_shape (Some 10) (Some 3))))
               (TfTensor (placeholder "v" (matrix_shape (Some 3) (Some 4)))) false
    = Some true
  ∧ _check_shape (TfTensor ph_a) (TfTensor ph_u57) (TfTensor ph_v1113) true = Some false.
Proof.
  split.
  - refine (proj2 (proj1 (check_shape_inclusive_or _ _ _ _ 10 4 10 3 3 4 _ _ _)) _);
      [reflexivity..|].
    left. reflexivity.
  - refine (proj2 (proj2 (check_shape_inclusive_or _ _ _ _ 2 3 5 7 11 13 _ _ _)) _);
      [reflexivity..|].
    cbn. lia.
Defined.

(** The round trip on the sample matrices. *)
Lemma orientation_round_trip_sample :
  well_shaped sample_u ∧ well_shaped sample_v ∧ no_solving hands_back ∧
  (semi_nmf hands_back (NdArray sample_a) (NdArray sample_u) (NdArray sample_v)
     false false BATCH_FIRST default_first_nneg default_num_iters
     default_rcond default_eps default_alpha default_beta).2
    = Return (NdArray sample_u, NdArray sample_v).
Proof.
  split; [exact sample_u_well_shaped|].
  split; [exact sample_v_well_shaped|].
  split; [exact hands_back_no_solving|].
  apply (orientation_round_trip hands_back default_first_nneg default_num_iters
           default_num_calc default_num_calc default_rcond default_eps
           default_alpha default_beta
           sample_a sample_u sample_v 2 3 1 false eq_refl eq_refl eq_refl
           sample_u_well_shaped sample_v_well_shaped).
  exact hands_back_no_solving.
Defined.

(** Shapes that agree in nothing stop the linear entry operation at once. *)
Lemma shape_failure_sample :
  truthy (_check_shape (TfTensor ph_a) (TfTensor ph_u57) (TfTensor ph_v1113) false) = false ∧
  semi_nmf hands_back (TfTensor ph_a) (TfTensor ph_u57) (TfTensor ph_v1113)
    false true BATCH_FIRST default_first_nneg default_num_iters
    default_rcond default_eps default_alpha default_beta
    = ([], Raise AssertionError).
Proof.
  split; [reflexivity|].
  apply (shape_failure_before_work hands_back default_first_nneg default_num_iters
           default_num_calc default_num_calc default_rcond default_eps
           default_alpha default_beta
           (TfTensor ph_a) (TfTensor ph_u57) (TfTensor ph_v1113) false true BATCH_FIRST).
  reflexivity.
Defined.

(** On the same shapes the softmax entry operation builds its graph. *)
Lemma validation_asymmetry_sample :
  truthy (_check_shape (TfTensor ph_a) (TfTensor ph_u57) (TfTensor ph_v1113) false) = false ∧
  (softmax_nmf hands_back (TfTensor ph_a) (TfTensor ph_u57) (TfTensor ph_v1113)
     false true BATCH_FIRST default_num_iters
     default_rcond default_eps default_alpha default_beta).1
    = [Bound (softmax_partial false default_num_iters default_rcond default_eps
                default_alpha default_beta)].
Proof.
  split; [reflexivity|].
  destruct (validation_asymmetry hands_back default_first_nneg default_num_iters
           default_num_calc default_num_calc default_rcond default_eps
           default_alpha default_beta
           (TfTensor ph_a) (TfTensor ph_u57) (TfTensor ph_v1113) false true BATCH_FIRST
           eq_refl) as (_ & _ & ->).
  reflexivity.
Defined.

Lemma returns_nan_poisoned p a u v : poisoned returns_nan p a u v.
Proof.
  eexists _, _. split; [reflexivity|].
  split; [by apply well_shapedb_spec|].
  split; [by apply well_shapedb_spec|].
  left. reflexivity.
Qed.

(** The NaN stub through both backends, on the sample inputs. *)
Lemma validity_gate_sample :
  poisoned returns_nan
    (linear_partial false default_first_nneg default_num_iters
       default_rcond default_eps default_alpha default_beta)
    (T sample_a) (T sample_v) (T sample_u) ∧
  (∃ tu tv message,
     (semi_nmf returns_nan (TfTensor ph_a) (TfTensor ph_u) (TfTensor ph_v)
        false true BATCH_FIRST default_first_nneg default_num_iters
        default_rcond default_eps default_alpha default_beta).2
       = Return (TfTensor tu, TfTensor tv)
     ∧ run2 returns_nan sample_feed (tu, tv) = Raise (InvalidArgumentError message)) ∧
  (∃ ru rv,
     (semi_nmf returns_nan (NdArray sample_a) (NdArray sample_u) (NdArray sample_v)
        false false BATCH_FIRST default_first_nneg default_num_iters
        default_rcond default_eps default_alpha default_beta).2
       = Return (NdArray ru, NdArray rv)
     ∧ (has_nonfinite ru = true ∨ has_nonfinite rv = true)).
Proof.
  pose proof (returns_nan_poisoned
                (linear_partial false default_first_nneg default_num_iters
                   default_rcond default_eps default_alpha default_beta)
                (T sample_a) (T sample_v) (T sample_u)) as P.
  split; [exact P|].
  destruct (validity_gate returns_nan default_first_nneg default_num_iters
              default_num_calc default_num_calc default_rcond default_eps
              default_alpha default_beta
              (TfTensor ph_a) (TfTensor ph_u) (TfTensor ph_v) false BATCH_FIRST
              sample_feed sample_a sample_u sample_v eq_refl eq_refl eq_refl)
    as (_ & H & _).
  destruct (H P) as [Hd Hi].
  split.
  - destruct (Hd eq_refl) as (tu & tv & message & E & R & _).
    exists tu, tv, message. split; assumption.
  - destruct (Hi eq_refl) as (ou & ov & _ & E & B).
    eexists _, _. split; [exact E|exact B].
Defined.

(** The graph tensors returned for the sample placeholders have their
    shapes. *)
Lemma shape_reattachment_sample :
  ∃ tu tv,
    (nonlin_semi_nmf hands_back (TfTensor ph_a) (TfTensor ph_u) (TfTensor ph_v)
       false true BATCH_FIRST default_first_nneg default_num_iters
       default_num_calc default_num_calc
       default_rcond default_eps default_alpha default_beta).2
      = Return (TfTensor tu, TfTensor tv)
    ∧ get_shape tu = matrix_shape (Some 2) (Some 1)
    ∧ get_shape tv = matrix_shape (Some 1) (Some 3).
Proof.
  destruct (shape_reattachment hands_back default_first_nneg default_num_iters
              default_num_calc default_num_calc default_rcond default_eps
              default_alpha default_beta
              (TfTensor ph_a) (TfTensor ph_u) (TfTensor ph_v) false BATCH_FIRST)
    as [_ H].
  destruct (H eq_refl) as [_ (gu & gv & E & Su & Sv & _)].
  eexists _, _. split; [exact E|]. split; [exact Su|exact Sv].
Defined.

(** Feature-first, the stub gets the sample matrices as they are. *)
Lemma feature_first_sample :
  is_BATCH_FIRST (PyBool false) = false ∧
  (semi_nmf hands_back (NdArray sample_a) (NdArray sample_u) (NdArray sample_v)
     false false (PyBool false) default_first_nneg default_num_iters
     default_rcond default_eps default_alpha default_beta).2
    = Return (NdArray sample_u, NdArray sample_v).
Proof.
  split; [reflexivity|].
  destruct (feature_first_pass_through hands_back default_first_nneg default_num_iters
              default_num_calc default_num_calc default_rcond default_eps
              default_alpha default_beta
              sample_a (NdArray sample_u) (NdArray sample_v) false (PyBool false) eq_refl)
    as [_ H].
  destruct (H eq_refl) as [-> _]. reflexivity.
Defined.

(** A graph tensor as [a] without [use_tf]: no backend. *)
Lemma unsupported_backend_sample :
  select_backend (TfTensor ph_a) false = Unsupported ∧
  (softmax_nmf hands_back (TfTensor ph_a) (TfTensor ph_u) (TfTensor ph_v)
     false false BATCH_FIRST default_num_iters
     default_rcond default_eps default_alpha default_beta).2
    = Raise (NotImplementedError "Never implement other type matrix") ∧
  (semi_nmf hands_back (TfTensor ph_a) (TfTensor ph_u) (TfTensor ph_v)
     false false BATCH_FIRST default_first_nneg default_num_iters
     default_rcond default_eps default_alpha default_beta).2
    = Raise (NotImplementedError "Never implement other type matrix").
Proof.
  split; [reflexivity|].
  destruct (unsupported_backend hands_back default_first_nneg default_num_iters
              default_num_calc default_num_calc default_rcond default_eps
              default_alpha default_beta
              (TfTensor ph_a) (TfTensor ph_u) (TfTensor ph_v) false false BATCH_FIRST
              eq_refl) as (-> & -> & _).
  split; reflexivity.
Defined.

(** The sample arrays with [use_tf] set: graph tensors come back and the stub
    is not called. *)
Lemma flag_precedes_array_type_sample :
  (softmax_nmf hands_back (NdArray sample_a) (NdArray sample_u) (NdArray sample_v)
     false true BATCH_FIRST default_num_iters
     default_rcond default_eps default_alpha default_beta).1
    = [Bound (softmax_partial false default_num_iters default_rcond default_eps
                default_alpha default_beta)].
Proof.
  destruct (flag_precedes_array_type hands_back default_first_nneg default_num_iters
              default_num_calc default_num_calc default_rcond default_eps
              default_alpha default_beta
              sample_a (NdArray sample_a) (NdArray sample_u) (NdArray sample_v)
              false true BATCH_FIRST) as [[-> _] _].
  reflexivity.
Defined.

(** The nonlinear callable of a call with [num_calc_u=3, num_calc_v=2]. *)
Lemma variant_isolation_sample :
  ∃ q,
    Bound q ∈ (nonlin_semi_nmf hands_back
                 (NdArray sample_a) (NdArray sample_u) (NdArray sample_v)
                 false false BATCH_FIRST default_first_nneg default_num_iters
                 (PyInt 3) (PyInt 2)
                 default_rcond default_eps default_alpha default_beta).1
    ∧ p_keywords q !! "num_calc_u" = Some (PyInt 3)
    ∧ p_keywords q !! "num_calc_v" = Some (PyInt 2).
Proof.
  destruct (variant_isolation hands_back
              (NdArray sample_a) (NdArray sample_u) (NdArray sample_v)
              false false BATCH_FIRST default_first_nneg default_num_iters
              (PyInt 3) (PyInt 2)
              default_rcond default_eps default_alpha default_beta refinement_counts)
    as (Hn & _ & _ & Hb & _).
  destruct (Hb eq_refl) as [[q Hq] _].
  exists q. split; [exact Hq|]. apply Hn. left. exact Hq.
Defined.

(* ===================================================================== *)
(** ** Where the code departs from the spec *)
(* ===================================================================== *)

(** The linear entry operation called with [num_calc_u=3, num_calc_v=2]
    does not ignore the two keywords: the call is refused with a
    [TypeError].  The nonlinear entry operation takes the same keywords. *)
Lemma linear_refuses_refinement_counts :
  call_semi_nmf hands_back (NdArray sample_a) (NdArray sample_u) (NdArray sample_v)
    refinement_counts
    = ([], Raise (TypeError "got an unexpected keyword argument"))
  ∧ (call_nonlin_semi_nmf hands_back
       (NdArray sample_a) (NdArray sample_u) (NdArray sample_v) refinement_counts).2
    = Return (NdArray sample_u, NdArray sample_v).
Proof. split; reflexivity. Qed.

(** A call that selects neither backend and whose shapes agree in nothing
    fails in the linear entry operation with the assertion's error, not with
    [NotImplementedError]. *)
Lemma unsupported_backend_after_assert :
  select_backend (TfTensor ph_a) false = Unsupported
  ∧ semi_nmf hands_back (TfTensor ph_a) (TfTensor ph_u57) (TfTensor ph_v1113)
      false false BATCH_FIRST default_first_nneg default_num_iters
      default_rcond default_eps default_alpha default_beta
    = ([], Raise AssertionError).
Proof. split; reflexivity. Qed.

(* ===================================================================== *)
(** ** Further properties of the interface *)
(* ===================================================================== *)

(** A stub that always fails. *)
Definition always_fails : solver_kernels :=
  λ _ _ _ _ _ _, Raise (SolverKernelError "singular matrix").

(** Placeholders declared without a shape. *)
Definition ph_a_unknown : Tensor := placeholder "a" unknown_shape.
Definition ph_u_unknown : Tensor := placeholder "u" unknown_shape.

(** The keyword [first_nneg=False]. *)
Definition first_nneg_off : kwargs :=
  mk_kwargs None None None (Some (PyBool false)) None None None None None None None.

(** The callable [q] was constructed or invoked during the call [r]. *)
Definition used (q : partial) (r : M (pyobj * pyobj)) : Prop :=
  Bound q ∈ r.1 ∨ (∃ x y z, Invoked q x y z ∈ r.1).

(** The module the kernels are imported from (lines 58-59 and 68-69, and
    their copies). *)
Definition kernel_module (use_bias : bool) : solver_module :=
  if use_bias then np_biased_nmf else np_nmf.

(** The kernel hands back arrays of the shapes of the factors it was given. *)
Definition shape_preserving (r : result (ndarray * ndarray)) (u v : ndarray) : Prop :=
  ∃ ou ov, r = Return (ou, ov) ∧ shape ou = shape u ∧ shape ov = shape v.

Section Callables.

Variable kernel : solver_kernels.
Variables first_nneg num_iters num_calc_u num_calc_v rcond eps alpha beta : pyval.
Implicit Types (a u v : pyobj) (use_bias use_tf : bool) (data_format : pyval).

Local Abbreviation linear a u v use_bias use_tf data_format :=
  (semi_nmf kernel a u v use_bias use_tf data_format
     first_nneg num_iters rcond eps alpha beta).
Local Abbreviation nonlinear a u v use_bias use_tf data_format :=
  (nonlin_semi_nmf kernel a u v use_bias use_tf data_format
     first_nneg num_iters num_calc_u num_calc_v rcond eps alpha beta).
Local Abbreviation softmax a u v use_bias use_tf data_format :=
  (softmax_nmf kernel a u v use_bias use_tf data_format
     num_iters rcond eps alpha beta).
Local Abbreviation linear_p use_bias :=
  (linear_partial use_bias first_nneg num_iters rcond eps alpha beta).
Local Abbreviation nonlinear_p use_bias :=
  (nonlinear_partial use_bias first_nneg num_iters num_calc_u num_calc_v
     rcond eps alpha beta).
Local Abbreviation softmax_p use_bias :=
  (softmax_partial use_bias num_iters rcond eps alpha beta).

Lemma used_linear a u v use_bias use_tf data_format q :
  used q (linear a u v use_bias use_tf data_format) → q = linear_p use_bias.
Proof.
  unfold used. rewrite semi_nmf_eq. destruct (truthy _).
  - apply after_bound_dispatch_events.
  - intros [Hq|(x & y & z & Hq)]; by apply elem_of_nil in Hq.
Qed.

Lemma used_nonlinear a u v use_bias use_tf data_format q :
  used q (nonlinear a u v use_bias use_tf data_format) → q = nonlinear_p use_bias.
Proof.
  unfold used. rewrite nonlin_semi_nmf_eq. destruct (truthy _).
  - apply after_bound_dispatch_events.
  - intros [Hq|(x & y & z & Hq)]; by apply elem_of_nil in Hq.
Qed.

Lemma used_softmax a u v use_bias use_tf data_format q :
  used q (softmax a u v use_bias use_tf data_format) → q = softmax_p use_bias.
Proof. unfold used. rewrite softmax_nmf_eq. apply after_bound_dispatch_events. Qed.

(** X1.  Whatever the inputs, the backend and the orientation, a callable an
    entry operation constructs or invokes is the kernel of its own variant,
    taken from [np_biased_nmf] when [use_bias] is set and from [np_nmf] when
    it is not. *)
Theorem callable_selection a u v use_bias use_tf data_format q :
  (used q (linear a u v use_bias use_tf data_format) →
     p_module q = kernel_module use_bias ∧ p_func q = semi_nmf_) ∧
  (used q (nonlinear a u v use_bias use_tf data_format) →
     p_module q = kernel_module use_bias ∧ p_func q = nonlin_semi_nmf_) ∧
  (used q (softmax a u v use_bias use_tf data_format) →
     p_module q = kernel_module use_bias ∧ p_func q = softmax_nmf_).
Proof.
  split; [|split]; intros Hq.
  - apply used_linear in Hq. subst q. by destruct use_bias.
  - apply used_nonlinear in Hq. subst q. by destruct use_bias.
  - apply used_softmax in Hq. subst q. by destruct use_bias.
Qed.

(** X2.  The regularisation coefficients [alpha] and [beta] reach the kernel
    exactly when [use_bias] is set: with [use_bias] unset the callable of each
    of the three entry operations has neither keyword, whatever values the
    call was given; [rcond], [eps] and [num_iters] are always forwarded with
    the values of the call. *)
Theorem regularisation_only_with_bias a u v use_bias use_tf data_format q :
  used q (linear a u v use_bias use_tf data_format) ∨
  used q (nonlinear a u v use_bias use_tf data_format) ∨
  used q (softmax a u v use_bias use_tf data_format) →
  p_keywords q !! "alpha" = (if use_bias then Some alpha else None) ∧
  p_keywords q !! "beta" = (if use_bias then Some beta else None) ∧
  p_keywords q !! "rcond" = Some rcond ∧
  p_keywords q !! "eps" = Some eps ∧
  p_keywords q !! "num_iters" = Some num_iters.
Proof.
  intros [Hq|[Hq|Hq]].
  - apply used_linear in Hq. subst q. by destruct use_bias.
  - apply used_nonlinear in Hq. subst q. by destruct use_bias.
  - apply used_softmax in Hq. subst q. by destruct use_bias.
Qed.

(** X3.  [first_nneg] is forwarded by the linear and the nonlinear entry
    operation and never by the softmax one, whose callable has no
    [first_nneg], [num_calc_u] or [num_calc_v]; passed as a keyword to the
    softmax entry operation, any of the three is refused with a [TypeError]
    before anything is done. *)
Theorem softmax_has_no_first_nneg a u v use_bias use_tf data_format (kw : kwargs) :
  (∀ q, used q (linear a u v use_bias use_tf data_format) →
        p_keywords q !! "first_nneg" = Some first_nneg) ∧
  (∀ q, used q (nonlinear a u v use_bias use_tf data_format) →
        p_keywords q !! "first_nneg" = Some first_nneg) ∧
  (∀ q, used q (softmax a u v use_bias use_tf data_format) →
        p_keywords q !! "first_nneg" = None ∧
        p_keywords q !! "num_calc_u" = None ∧
        p_keywords q !! "num_calc_v" = None) ∧
  (is_Some (kw_first_nneg kw) ∨ is_Some (kw_num_calc_u kw) ∨ is_Some (kw_num_calc_v kw) →
     call_softmax_nmf kernel a u v kw
       = ([], Raise (TypeError "got an unexpected keyword argument"))).
Proof.
  split; [|split; [|split]].
  - intros q Hq. apply used_linear in Hq. subst q. by destruct use_bias.
  - intros q Hq. apply used_nonlinear in Hq. subst q. by destruct use_bias.
  - intros q Hq. apply used_softmax in Hq. subst q. by destruct use_bias.
  - intros Hkw. unfold call_softmax_nmf.
    destruct Hkw as [Hkw|[Hkw|Hkw]]; rewrite (bool_decide_eq_true_2 _ Hkw).
    + done.
    + by rewrite orb_true_r.
    + by rewrite orb_true_r.
Qed.

(** The events of a dispatch after the construction of [p]. *)
Lemma after_bound_dispatch_trace p a u v use_tf data_format :
  let r := after (Bound p) (dispatch kernel p a u v use_tf data_format) in
  r.1 = [Bound p] ∨ ∃ x y z, r.1 = [Bound p; Invoked p x y z].
Proof.
  cbn [after fst]. unfold dispatch. destruct (select_backend a use_tf).
  - destruct (immediate_events kernel p a u v data_format) as [E|(x & y & z & E)];
      rewrite E; [by left|right; by exists x, y, z].
  - rewrite deferred_eq. by left.
  - by left.
Qed.

(** X4.  A call constructs one solver callable and invokes it at most once:
    the events of a call are the construction alone, or the construction
    followed by one invocation of the callable just constructed; for the
    linear and the nonlinear entry operation there is also the call that
    stops at the assertion with no event at all. *)
Theorem one_callable_one_invocation a u v use_bias use_tf data_format :
  let traced p (r : M (pyobj * pyobj)) :=
    r.1 = [Bound p] ∨ ∃ x y z, r.1 = [Bound p; Invoked p x y z] in
  let stopped (r : M (pyobj * pyobj)) := r = ([], Raise AssertionError) in
  (stopped (linear a u v use_bias use_tf data_format) ∨
   traced (linear_p use_bias) (linear a u v use_bias use_tf data_format)) ∧
  (stopped (nonlinear a u v use_bias use_tf data_format) ∨
   traced (nonlinear_p use_bias) (nonlinear a u v use_bias use_tf data_format)) ∧
  traced (softmax_p use_bias) (softmax a u v use_bias use_tf data_format).
Proof.
  intros traced stopped. subst traced stopped. cbv beta.
  rewrite semi_nmf_eq, nonlin_semi_nmf_eq, softmax_nmf_eq. cbv zeta.
  destruct (truthy _).
  - split; [right|split; [right|]]; apply after_bound_dispatch_trace.
  - split; [by left|split; [by left|]]. apply after_bound_dispatch_trace.
Qed.

End Callables.

(** What lines 82-83 make of a kernel result: [u = v_t.T; v = u_t.T]. *)
Definition transposed_back (r : result (pyobj * pyobj)) : result (pyobj * pyobj) :=
  '(u_t, v_t) ← r;
  u ← dot_T v_t;
  v ← dot_T u_t;
  Return (u, v).

(** What [tf.check_numerics] makes of a value. *)
Definition checked (message : string) (m : ndarray) : result ndarray :=
  if has_nonfinite m then Raise (InvalidArgumentError message) else Return m.

Section Execution.

Variables kernel kernel' : solver_kernels.
Variables first_nneg num_iters num_calc_u num_calc_v rcond eps alpha beta : pyval.
Implicit Types (a u v : pyobj) (use_bias use_tf : bool) (data_format : pyval).
Implicit Types (p : partial) (feed : gmap string ndarray).

Local Abbreviation linear k a u v use_bias use_tf data_format :=
  (semi_nmf k a u v use_bias use_tf data_format
     first_nneg num_iters rcond eps alpha beta).
Local Abbreviation nonlinear k a u v use_bias use_tf data_format :=
  (nonlin_semi_nmf k a u v use_bias use_tf data_format
     first_nneg num_iters num_calc_u num_calc_v rcond eps alpha beta).
Local Abbreviation softmax k a u v use_bias use_tf data_format :=
  (softmax_nmf k a u v use_bias use_tf data_format
     num_iters rcond eps alpha beta).
Local Abbreviation linear_p use_bias :=
  (linear_partial use_bias first_nneg num_iters rcond eps alpha beta).
Local Abbreviation nonlinear_p use_bias :=
  (nonlinear_partial use_bias first_nneg num_iters num_calc_u num_calc_v
     rcond eps alpha beta).
Local Abbreviation softmax_p use_bias :=
  (softmax_partial use_bias num_iters rcond eps alpha beta).

(** X5.  On the immediate backend an exception of the kernel is the
    exception of the call: when the bound kernel raises [e] on the operands
    made of the arrays [va], [vu], [vv], each entry operation that gets as
    far as the call raises [e], in either orientation. *)
Theorem kernel_failure_propagates (va vu vv : ndarray) use_bias data_format (e : exn) :
  let raises p :=
    (let '(x, y, z) := solver_operands data_format va vu vv in
     invoke kernel p (NdArray x) (NdArray y) (NdArray z)) = Raise e in
  let a := NdArray va in
  let u := NdArray vu in
  let v := NdArray vv in
  (raises (softmax_p use_bias) →
     (softmax kernel a u v use_bias false data_format).2 = Raise e) ∧
  (raises (linear_p use_bias) → truthy (_check_shape a u v use_bias) = true →
     (linear kernel a u v use_bias false data_format).2 = Raise e) ∧
  (raises (nonlinear_p use_bias) → truthy (_check_shape a u v use_bias) = true →
     (nonlinear kernel a u v use_bias false data_format).2 = Raise e).
Proof.
  intros raises a u v. subst raises a u v. cbv beta.
  rewrite semi_nmf_eq, nonlin_semi_nmf_eq, softmax_nmf_eq. cbv zeta.
  split; [|split].
  - intros H. cbn [after snd]. rewrite dispatch_immediate, immediate_arrays, H. done.
  - intros H ->. cbn [after snd]. rewrite dispatch_immediate, immediate_arrays, H. done.
  - intros H ->. cbn [after snd]. rewrite dispatch_immediate, immediate_arrays, H. done.
Qed.

(** X6.  With [use_tf] set a call does not depend on the solver kernels: it
    returns the same outcome and the same events whatever the kernels do, and
    the only exception it can raise is the one of the assertion. *)
Theorem deferred_call_ignores_kernel a u v use_bias data_format :
  (semi_nmf kernel a u v use_bias true data_format
     first_nneg num_iters rcond eps alpha beta
   = semi_nmf kernel' a u v use_bias true data_format
       first_nneg num_iters rcond eps alpha beta ∧
   nonlin_semi_nmf kernel a u v use_bias true data_format
     first_nneg num_iters num_calc_u num_calc_v rcond eps alpha beta
   = nonlin_semi_nmf kernel' a u v use_bias true data_format
       first_nneg num_iters num_calc_u num_calc_v rcond eps alpha beta ∧
   softmax_nmf kernel a u v use_bias true data_format
     num_iters rcond eps alpha beta
   = softmax_nmf kernel' a u v use_bias true data_format
       num_iters rcond eps alpha beta) ∧
  (∀ e, (linear kernel a u v use_bias true data_format).2 = Raise e ∨
        (nonlinear kernel a u v use_bias true data_format).2 = Raise e ∨
        (softmax kernel a u v use_bias true data_format).2 = Raise e →
        e = AssertionError).
Proof.
  rewrite !semi_nmf_eq, !nonlin_semi_nmf_eq, !softmax_nmf_eq. cbv zeta.
  rewrite !dispatch_deferred. split; [done|].
  intros e. destruct (truthy _); cbn; intros [H|[H|H]]; congruence.
Qed.

(** The values of the two tensors a deferred call returns. *)
Lemma run_graph_handles_checked feed p a u v data_format (va vu vv ou ov : ndarray) :
  run kernel feed (convert_to_tensor a) = Return va →
  run kernel feed (convert_to_tensor u) = Return vu →
  run kernel feed (convert_to_tensor v) = Return vv →
  (let '(x, y, z) := solver_operands data_format va vu vv in
   invoke kernel p (NdArray x) (NdArray y) (NdArray z)) = Return (ou, ov) →
  run kernel feed (graph_handles p a u v data_format).1
    = checked "u" (solver_results data_format ou ov).1 ∧
  run kernel feed (graph_handles p a u v data_format).2
    = checked "v" (solver_results data_format ou ov).2.
Proof.
  intros Ha Hu Hv Hk.
  exact (run_graph_handles kernel feed p a u v data_format va vu vv ou ov Ha Hu Hv Hk).
Qed.

(** X7.  Running a tensor a deferred call returned gives the kernel's result
    for it, converted back to the caller's orientation and passed through
    [tf.check_numerics]: the tensor returned as [u] evaluates to the checked
    [u] result (message ['u']), the one returned as [v] to the checked [v]
    result (message ['v']), each on its own, so that a finite output is
    delivered even when the other one is not finite. *)
Theorem deferred_run_values a u v use_bias data_format feed (va vu vv : ndarray) :
  run kernel feed (convert_to_tensor a) = Return va →
  run kernel feed (convert_to_tensor u) = Return vu →
  run kernel feed (convert_to_tensor v) = Return vv →
  let values p (r : M (pyobj * pyobj)) :=
    ∀ ou ov,
      (let '(x, y, z) := solver_operands data_format va vu vv in
       invoke kernel p (NdArray x) (NdArray y) (NdArray z)) = Return (ou, ov) →
      ∃ tu tv,
        r.2 = Return (TfTensor tu, TfTensor tv)
        ∧ run kernel feed tu = checked "u" (solver_results data_format ou ov).1
        ∧ run kernel feed tv = checked "v" (solver_results data_format ou ov).2 in
  values (softmax_p use_bias) (softmax kernel a u v use_bias true data_format) ∧
  (truthy (_check_shape a u v use_bias) = true →
     values (linear_p use_bias) (linear kernel a u v use_bias true data_format) ∧
     values (nonlinear_p use_bias) (nonlinear kernel a u v use_bias true data_format)).
Proof.
  intros Ha Hu Hv values.
  assert (V : ∀ p, values p (after (Bound p) (dispatch kernel p a u v true data_format))).
  { intros p ou ov Hk. rewrite dispatch_deferred. cbn [after snd].
    destruct (run_graph_handles_checked feed p a u v data_format va vu vv ou ov
                Ha Hu Hv Hk) as [Eu Ev].
    eexists _, _. split; [reflexivity|]. split; [exact Eu|exact Ev]. }
  rewrite semi_nmf_eq, nonlin_semi_nmf_eq, softmax_nmf_eq. cbv zeta.
  split; [apply V|]. intros ->. split; apply V.
Qed.

(** X8.  The two backends agree on finite results: when the inputs of a
    deferred call have the values [va], [vu], [vv] at run time and the bound
    kernel returns well-shaped finite arrays on the operands made of them,
    running the returned tensors gives the very arrays the immediate backend
    returns when called on [va], [vu], [vv]. *)
Theorem backends_agree a u v use_bias data_format feed (va vu vv : ndarray) :
  run kernel feed (convert_to_tensor a) = Return va →
  run kernel feed (convert_to_tensor u) = Return vu →
  run kernel feed (convert_to_tensor v) = Return vv →
  let finite p :=
    ∃ ou ov,
      (let '(x, y, z) := solver_operands data_format va vu vv in
       invoke kernel p (NdArray x) (NdArray y) (NdArray z)) = Return (ou, ov)
      ∧ well_shaped ou ∧ well_shaped ov
      ∧ has_nonfinite ou = false ∧ has_nonfinite ov = false in
  let agree (deferred_call immediate_call : M (pyobj * pyobj)) :=
    ∃ tu tv ru rv,
      deferred_call.2 = Return (TfTensor tu, TfTensor tv)
      ∧ run2 kernel feed (tu, tv) = Return (ru, rv)
      ∧ immediate_call.2 = Return (NdArray ru, NdArray rv) in
  let va' := NdArray va in
  let vu' := NdArray vu in
  let vv' := NdArray vv in
  (finite (softmax_p use_bias) →
     agree (softmax kernel a u v use_bias true data_format)
           (softmax kernel va' vu' vv' use_bias false data_format)) ∧
  (finite (linear_p use_bias) →
   truthy (_check_shape a u v use_bias) = true →
   truthy (_check_shape va' vu' vv' use_bias) = true →
     agree (linear kernel a u v use_bias true data_format)
           (linear kernel va' vu' vv' use_bias false data_format)) ∧
  (finite (nonlinear_p use_bias) →
   truthy (_check_shape a u v use_bias) = true →
   truthy (_check_shape va' vu' vv' use_bias) = true →
     agree (nonlinear kernel a u v use_bias true data_format)
           (nonlinear kernel va' vu' vv' use_bias false data_format)).
Proof.
  intros Ha Hu Hv finite agree va' vu' vv'.
  assert (A : ∀ p, finite p →
    agree (after (Bound p) (dispatch kernel p a u v true data_format))
          (after (Bound p) (dispatch kernel p va' vu' vv' false data_format))).
  { intros p (ou & ov & Hk & Wu & Wv & Fu & Fv). subst va' vu' vv'.
    rewrite dispatch_deferred, dispatch_immediate. cbn [after snd].
    destruct (run_graph_handles_checked feed p a u v data_format va vu vv ou ov
                Ha Hu Hv Hk) as [Eu Ev].
    assert (has_nonfinite (solver_results data_format ou ov).1 = false
            ∧ has_nonfinite (solver_results data_format ou ov).2 = false) as [Gu Gv].
    { unfold solver_results, from_solver_orientation.
      destruct (is_BATCH_FIRST data_format); cbn [fst snd];
        rewrite ?T_has_nonfinite by done; done. }
    unfold checked in Eu, Ev. rewrite Gu in Eu. rewrite Gv in Ev.
    eexists _, _, _, _. split; [reflexivity|]. split.
    - unfold run2. cbn [fst snd]. rewrite Eu, Ev. reflexivity.
    - cbn [after snd]. rewrite immediate_arrays, Hk. reflexivity. }
  rewrite !semi_nmf_eq, !nonlin_semi_nmf_eq, !softmax_nmf_eq. cbv zeta.
  split; [|split].
  - apply A.
  - intros F -> ->. by apply A.
  - intros F -> ->. by apply A.
Qed.

End Execution.

Section Orientation.

Variable kernel : solver_kernels.
Variables first_nneg num_iters num_calc_u num_calc_v rcond eps alpha beta : pyval.
Implicit Types (a u v : pyobj) (use_bias use_tf : bool) (data_format : pyval).
Implicit Types (p : partial).

Local Abbreviation linear a u v use_bias use_tf data_format :=
  (semi_nmf kernel a u v use_bias use_tf data_format
     first_nneg num_iters rcond eps alpha beta).
Local Abbreviation nonlinear a u v use_bias use_tf data_format :=
  (nonlin_semi_nmf kernel a u v use_bias use_tf data_format
     first_nneg num_iters num_calc_u num_calc_v rcond eps alpha beta).
Local Abbreviation softmax a u v use_bias use_tf data_format :=
  (softmax_nmf kernel a u v use_bias use_tf data_format
     num_iters rcond eps alpha beta).
Local Abbreviation linear_p use_bias :=
  (linear_partial use_bias first_nneg num_iters rcond eps alpha beta).
Local Abbreviation nonlinear_p use_bias :=
  (nonlinear_partial use_bias first_nneg num_iters num_calc_u num_calc_v
     rcond eps alpha beta).
Local Abbreviation softmax_p use_bias :=
  (softmax_partial use_bias num_iters rcond eps alpha beta).

Lemma is_BATCH_FIRST_other data_format :
  data_format ≠ BATCH_FIRST → is_BATCH_FIRST data_format = false.
Proof. by destruct data_format as [[]| |]. Qed.

(** The dispatch reads [data_format] only through the test
    [data_format is BATCH_FIRST]. *)
Lemma dispatch_data_format p a u v use_tf d d' :
  is_BATCH_FIRST d = is_BATCH_FIRST d' →
  dispatch kernel p a u v use_tf d = dispatch kernel p a u v use_tf d'.
Proof.
  intros H. unfold dispatch, immediate, deferred, gated_outputs. by rewrite H.
Qed.

(** X9.  The orientation flag is compared by identity with [True]: every
    other value of [data_format], the integer [1] and the float [1.0]
    included, selects the feature-first orientation, and the call does what
    it does for [data_format=False]. *)
Theorem data_format_by_identity a u v use_bias use_tf data_format :
  data_format ≠ BATCH_FIRST →
  linear a u v use_bias use_tf data_format
    = linear a u v use_bias use_tf (PyBool false) ∧
  nonlinear a u v use_bias use_tf data_format
    = nonlinear a u v use_bias use_tf (PyBool false) ∧
  softmax a u v use_bias use_tf data_format
    = softmax a u v use_bias use_tf (PyBool false).
Proof.
  intros H. apply is_BATCH_FIRST_other in H.
  rewrite !semi_nmf_eq, !nonlin_semi_nmf_eq, !softmax_nmf_eq. cbv zeta.
  by rewrite !(dispatch_data_format _ a u v use_tf data_format (PyBool false)).
Qed.

(** The shape check of a call and of the call on the converted operands
    agree when there is no bias. *)
Lemma check_shape_converted (a u v : ndarray) :
  _check_shape (NdArray (T a)) (NdArray (T v)) (NdArray (T u)) false
  = _check_shape (NdArray a) (NdArray u) (NdArray v) false.
Proof.
  unfold _check_shape. cbn. rewrite !Nat.add_0_r.
  rewrite (Nat.eqb_sym (nrows v) (ncols u)).
  destruct (ncols a =? ncols v)%nat, (nrows a =? nrows u)%nat,
    (ncols u =? nrows v)%nat; reflexivity.
Qed.

(** X10.  On arrays, the sample-first call is the feature-first call on the
    converted operands, converted back: for the softmax entry operation
    always, for the linear and the nonlinear one whenever the two calls agree
    on the shape check, which they do when [use_bias] is unset.  Exceptions
    of the feature-first call are those of the sample-first call. *)
Theorem sample_first_by_feature_first (a u v : ndarray) use_bias data_format :
  is_BATCH_FIRST data_format = false →
  let sample_first (f : pyobj → pyobj → pyobj → bool → bool → pyval → M (pyobj * pyobj)) :=
    (f (NdArray a) (NdArray u) (NdArray v) use_bias false BATCH_FIRST).2 in
  let feature_first (f : pyobj → pyobj → pyobj → bool → bool → pyval → M (pyobj * pyobj)) :=
    (f (NdArray (T a)) (NdArray (T v)) (NdArray (T u)) use_bias false data_format).2 in
  let same_check :=
    truthy (_check_shape (NdArray (T a)) (NdArray (T v)) (NdArray (T u)) use_bias)
    = truthy (_check_shape (NdArray a) (NdArray u) (NdArray v) use_bias) in
  sample_first (λ a u v b t d, softmax a u v b t d)
    = transposed_back (feature_first (λ a u v b t d, softmax a u v b t d)) ∧
  (same_check →
     sample_first (λ a u v b t d, linear a u v b t d)
       = transposed_back (feature_first (λ a u v b t d, linear a u v b t d)) ∧
     sample_first (λ a u v b t d, nonlinear a u v b t d)
       = transposed_back (feature_first (λ a u v b t d, nonlinear a u v b t d))) ∧
  (use_bias = false → same_check).
Proof.
  intros H sample_first feature_first same_check.
  subst sample_first feature_first same_check. cbv beta.
  assert (D : ∀ p,
    (dispatch kernel p (NdArray a) (NdArray u) (NdArray v) false BATCH_FIRST).2
    = transposed_back
        (dispatch kernel p (NdArray (T a)) (NdArray (T v)) (NdArray (T u))
           false data_format).2).
  { intros p. rewrite !dispatch_immediate.
    rewrite immediate_batch_first by reflexivity.
    rewrite immediate_native by exact H. cbn [snd].
    by destruct (invoke _ _ _ _ _) as [e|[u_t v_t]]. }
  rewrite !semi_nmf_eq, !nonlin_semi_nmf_eq, !softmax_nmf_eq. cbv zeta.
  split; [apply D|]. split.
  - intros ->. destruct (truthy _); [|done]. split; apply D.
  - intros ->. by rewrite check_shape_converted.
Qed.

Lemma shape_T (m : ndarray) : shape (T m) = ((shape m).2, (shape m).1).
Proof. reflexivity. Qed.

(** X11.  Shapes in are shapes out on the immediate backend: when the bound
    kernel hands back arrays of the shapes of the two factors it was given,
    the call returns arrays of the shapes of [u] and [v], in either
    orientation. *)
Theorem immediate_shapes_preserved (va vu vv : ndarray) use_bias data_format :
  let preserved p :=
    let '(x, y, z) := solver_operands data_format va vu vv in
    shape_preserving (invoke kernel p (NdArray x) (NdArray y) (NdArray z)) y z in
  let same_shapes (r : M (pyobj * pyobj)) :=
    ∃ ru rv, r.2 = Return (NdArray ru, NdArray rv)
             ∧ shape ru = shape vu ∧ shape rv = shape vv in
  let a := NdArray va in
  let u := NdArray vu in
  let v := NdArray vv in
  (preserved (softmax_p use_bias) →
     same_shapes (softmax a u v use_bias false data_format)) ∧
  (preserved (linear_p use_bias) → truthy (_check_shape a u v use_bias) = true →
     same_shapes (linear a u v use_bias false data_format)) ∧
  (preserved (nonlinear_p use_bias) → truthy (_check_shape a u v use_bias) = true →
     same_shapes (nonlinear a u v use_bias false data_format)).
Proof.
  intros preserved same_shapes a u v.
  assert (S : ∀ p, preserved p →
    same_shapes (after (Bound p) (dispatch kernel p a u v false data_format))).
  { intros p Hp. subst preserved same_shapes a u v. cbv beta in *.
    rewrite dispatch_immediate. cbn [after snd]. rewrite immediate_arrays.
    unfold solver_operands, solver_results, to_solver_orientation,
      from_solver_orientation in *.
    destruct (is_BATCH_FIRST data_format);
      destruct Hp as (ou & ov & -> & Su & Sv);
      eexists _, _; (split; [reflexivity|]); cbn [fst snd].
    - rewrite !shape_T, Su, Sv, !shape_T. cbn [fst snd]. by destruct (shape vu), (shape vv).
    - done. }
  rewrite semi_nmf_eq, nonlin_semi_nmf_eq, softmax_nmf_eq. cbv zeta.
  split; [|split].
  - apply S.
  - intros Hp ->. by apply S.
  - intros Hp ->. by apply S.
Qed.

(** X12.  Static shapes that are not known do not pass the validator: when
    [a] and [u] are graph tensors without a static shape, [_check_shape]
    returns [None] whatever [v] is, so the linear and the nonlinear entry
    operation stop at the assertion, also on the deferred backend, while the
    softmax entry operation builds its graph. *)
Theorem unknown_shapes_fail_assertion a u v use_bias use_tf data_format :
  dot_shape a = unknown_shape →
  dot_shape u = unknown_shape →
  _check_shape a u v use_bias = None ∧
  linear a u v use_bias use_tf data_format = ([], Raise AssertionError) ∧
  nonlinear a u v use_bias use_tf data_format = ([], Raise AssertionError) ∧
  (softmax a u v use_bias true data_format).2
    = Return (TfTensor (graph_handles (softmax_p use_bias) a u v data_format).1,
              TfTensor (graph_handles (softmax_p use_bias) a u v data_format).2).
Proof.
  intros Ha Hu.
  assert (C : _check_shape a u v use_bias = None).
  { unfold _check_shape. rewrite Ha, Hu. reflexivity. }
  rewrite semi_nmf_eq, nonlin_semi_nmf_eq, softmax_nmf_eq, C. cbv zeta.
  rewrite dispatch_deferred. done.
Qed.

End Orientation.

(* ===================================================================== *)
(** ** The further properties at sample inputs *)
(* ===================================================================== *)

(** Without bias, the callable of a linear call on the samples has no
    [alpha]. *)
Lemma regularisation_sample :
  used (linear_partial false default_first_nneg default_num_iters
          default_rcond default_eps default_alpha default_beta)
       (semi_nmf hands_back (NdArray sample_a) (NdArray sample_u) (NdArray sample_v)
          false false BATCH_FIRST default_first_nneg default_num_iters
          default_rcond default_eps default_alpha default_beta)
  ∧ p_keywords (linear_partial false default_first_nneg default_num_iters
                  default_rcond default_eps default_alpha default_beta) !! "alpha" = None.
Proof.
  assert (U : used (linear_partial false default_first_nneg default_num_iters
                      default_rcond default_eps default_alpha default_beta)
                (semi_nmf hands_back (NdArray sample_a) (NdArray sample_u) (NdArray sample_v)
                   false false BATCH_FIRST default_first_nneg default_num_iters
                   default_rcond default_eps default_alpha default_beta)).
  { left. rewrite semi_nmf_eq. apply list_elem_of_here. }
  split; [exact U|].
  destruct (regularisation_only_with_bias hands_back default_first_nneg default_num_iters
              default_num_calc default_num_calc default_rcond default_eps
              default_alpha default_beta
              (NdArray sample_a) (NdArray sample_u) (NdArray sample_v)
              false false BATCH_FIRST _ (or_introl U)) as (Ha & _).
  exact Ha.
Defined.

(** The stub that always fails, through the immediate backend. *)
Lemma kernel_failure_sample :
  (semi_nmf always_fails (NdArray sample_a) (NdArray sample_u) (NdArray sample_v)
     false false BATCH_FIRST default_first_nneg default_num_iters
     default_rcond default_eps default_alpha default_beta).2
    = Raise (SolverKernelError "singular matrix").
Proof.
  destruct (kernel_failure_propagates always_fails default_first_nneg default_num_iters
              default_num_calc default_num_calc default_rcond default_eps
              default_alpha default_beta
              sample_a sample_u sample_v false BATCH_FIRST
              (SolverKernelError "singular matrix")) as (_ & H & _).
  exact (H eq_refl eq_refl).
Defined.

(** The graph built for the sample placeholders, run on the sample feed with
    the stub that does no solving, gives the sample factors. *)
Lemma deferred_run_sample :
  ∃ tu tv,
    (softmax_nmf hands_back (TfTensor ph_a) (TfTensor ph_u) (TfTensor ph_v)
       false true BATCH_FIRST default_num_iters
       default_rcond default_eps default_alpha default_beta).2
      = Return (TfTensor tu, TfTensor tv)
    ∧ run hands_back sample_feed tu = Return sample_u
    ∧ run hands_back sample_feed tv = Return sample_v.
Proof.
  destruct (deferred_run_values hands_back default_first_nneg default_num_iters
              default_num_calc default_num_calc default_rcond default_eps
              default_alpha default_beta
              (TfTensor ph_a) (TfTensor ph_u) (TfTensor ph_v) false BATCH_FIRST
              sample_feed sample_a sample_u sample_v eq_refl eq_refl eq_refl)
    as [H _].
  destruct (H (T sample_v) (T sample_u) eq_refl) as (tu & tv & E & Ru & Rv).
  exists tu, tv. split; [exact E|]. split; [exact Ru|exact Rv].
Defined.

(** Both backends on the samples, with the stub that does no solving. *)
Lemma backends_agree_sample :
  ∃ tu tv ru rv,
    (softmax_nmf hands_back (TfTensor ph_a) (TfTensor ph_u) (TfTensor ph_v)
       false true BATCH_FIRST default_num_iters
       default_rcond default_eps default_alpha default_beta).2
      = Return (TfTensor tu, TfTensor tv)
    ∧ run2 hands_back sample_feed (tu, tv) = Return (ru, rv)
    ∧ (softmax_nmf hands_back (NdArray sample_a) (NdArray sample_u) (NdArray sample_v)
         false false BATCH_FIRST default_num_iters
         default_rcond default_eps default_alpha default_beta).2
      = Return (NdArray ru, NdArray rv).
Proof.
  destruct (backends_agree hands_back default_first_nneg default_num_iters
              default_num_calc default_num_calc default_rcond default_eps
              default_alpha default_beta
              (TfTensor ph_a) (TfTensor ph_u) (TfTensor ph_v) false BATCH_FIRST
              sample_feed sample_a sample_u sample_v eq_refl eq_refl eq_refl)
    as [H _].
  apply H. exists (T sample_v), (T sample_u).
  split; [reflexivity|].
  split; [by apply well_shapedb_spec|].
  split; [by apply well_shapedb_spec|].
  split; reflexivity.
Defined.

(** [data_format=1] is not [BATCH_FIRST]. *)
Lemma data_format_sample :
  PyInt 1 ≠ BATCH_FIRST ∧
  semi_nmf hands_back (NdArray sample_a) (NdArray sample_u) (NdArray sample_v)
    false false (PyInt 1) default_first_nneg default_num_iters
    default_rcond default_eps default_alpha default_beta
  = semi_nmf hands_back (NdArray sample_a) (NdArray sample_u) (NdArray sample_v)
      false false (PyBool false) default_first_nneg default_num_iters
      default_rcond default_eps default_alpha default_beta.
Proof.
  assert (N : PyInt 1 ≠ BATCH_FIRST) by discriminate.
  split; [exact N|].
  destruct (data_format_by_identity hands_back default_first_nneg default_num_iters
              default_num_calc default_num_calc default_rcond default_eps
              default_alpha default_beta
              (NdArray sample_a) (NdArray sample_u) (NdArray sample_v)
              false false (PyInt 1) N) as (H & _).
  exact H.
Defined.

(** The sample-first call on the samples and the feature-first call on their
    transposes. *)
Lemma sample_first_by_feature_first_sample :
  is_BATCH_FIRST (PyBool false) = false ∧
  (softmax_nmf hands_back (NdArray sample_a) (NdArray sample_u) (NdArray sample_v)
     false false BATCH_FIRST default_num_iters
     default_rcond default_eps default_alpha default_beta).2
  = transposed_back
      (softmax_nmf hands_back
         (NdArray (T sample_a)) (NdArray (T sample_v)) (NdArray (T sample_u))
         false false (PyBool false) default_num_iters
         default_rcond default_eps default_alpha default_beta).2.
Proof.
  split; [reflexivity|].
  exact (proj1 (sample_first_by_feature_first hands_back default_first_nneg
                  default_num_iters default_num_calc default_num_calc default_rcond
                  default_eps default_alpha default_beta
                  sample_a sample_u sample_v false (PyBool false) eq_refl)).
Defined.

(** The stub that does no solving preserves shapes, and so does the call. *)
Lemma immediate_shapes_sample :
  ∃ ru rv,
    (softmax_nmf hands_back (NdArray sample_a) (NdArray sample_u) (NdArray sample_v)
       false false BATCH_FIRST default_num_iters
       default_rcond default_eps default_alpha default_beta).2
      = Return (NdArray ru, NdArray rv)
    ∧ shape ru = (2, 1) ∧ shape rv = (1, 3).
Proof.
  destruct (immediate_shapes_preserved hands_back default_first_nneg default_num_iters
              default_num_calc default_num_calc default_rcond default_eps
              default_alpha default_beta
              sample_a sample_u sample_v false BATCH_FIRST) as [H _].
  apply H. exists (T sample_v), (T sample_u).
  split; [reflexivity|]. split; reflexivity.
Defined.

(** Placeholders declared without a shape stop the linear entry operation. *)
Lemma unknown_shapes_sample :
  dot_shape (TfTensor ph_a_unknown) = unknown_shape ∧
  dot_shape (TfTensor ph_u_unknown) = unknown_shape ∧
  semi_nmf hands_back (TfTensor ph_a_unknown) (TfTensor ph_u_unknown) (TfTensor ph_v)
    false true BATCH_FIRST default_first_nneg default_num_iters
    default_rcond default_eps default_alpha default_beta
  = ([], Raise AssertionError).
Proof.
  split; [reflexivity|]. split; [reflexivity|].
  destruct (unknown_shapes_fail_assertion hands_back default_first_nneg default_num_iters
              default_num_calc default_num_calc default_rcond default_eps
              default_alpha default_beta
              (TfTensor ph_a_unknown) (TfTensor ph_u_unknown) (TfTensor ph_v)
              false true BATCH_FIRST eq_refl eq_refl) as (_ & H & _).
  exact H.
Defined.
